(** * modelGenerator.ts: prompt -> image -> 3D model pipeline

    A shallow embedding of [src/testing_modelGenerator/modelGenerator.ts]
    (both variants kept in that file: the one that first optimizes the
    prompt through a chat-completion call, and the one that prefixes a
    system prompt), and the properties of the pipeline.

    - JavaScript strings are sequences of UTF-16 code units ([list N]);
      [trim], the regular expression [/[^a-zA-Z0-9]/g] (no [u] flag) and
      [substring] all work on code units.
    - [async] functions are computations over an explicit machine state
      (the files on disk and the trace of observable events) that either
      resolve with a value or reject with an error value.
    - [axios.post] is an arbitrary environment: a function from the
      request to the settled promise, so that the properties hold for
      the real axios on any network as well as for a test double.
    - the disk is a finite map from paths to contents; whether a write
      goes through is part of the environment, and a write that fails
      throws when the file is opened, before anything is changed.
    - the clock ([Date.now()]) and the loading of the keys and of the
      prompt files at module level are left out, their values being the
      fields of a configuration record. *)

From Stdlib Require Import ZArith NArith List Ascii String QArith DecimalString Lia ZifyBool.
From stdpp Require Import base decidable option list gmap.
Import ListNotations.
Set Warnings "-register-all".

Local Open Scope N_scope.

(** ** JavaScript strings *)

Module JsString.

(** A string value: its UTF-16 code units. *)
Abbreviation t := (list N) (only parsing).

(** A string literal of the source (ASCII only). *)
Definition lit (s : string) : t :=
  map N_of_ascii (list_ascii_of_string s).

(** ECMAScript [WhiteSpace] and [LineTerminator] code points, the ones
    [String.prototype.trim] strips.  All of them are in the BMP. *)
Definition is_white (c : N) : bool :=
  (c =? 0x0009) || (c =? 0x000A) || (c =? 0x000B) || (c =? 0x000C)
  || (c =? 0x000D) || (c =? 0x0020) || (c =? 0x00A0) || (c =? 0x1680)
  || ((0x2000 <=? c) && (c <=? 0x200A))
  || (c =? 0x2028) || (c =? 0x2029) || (c =? 0x202F) || (c =? 0x205F)
  || (c =? 0x3000) || (c =? 0xFEFF).

Fixpoint trimStart (s : t) : t :=
  match s with
  | [] => []
  | c :: r => if is_white c then trimStart r else s
  end.

Definition trimEnd (s : t) : t := rev (trimStart (rev s)).

(** [s.trim()] *)
Definition trim (s : t) : t := trimEnd (trimStart s).

(** [s.substring(0, n)] for [0 <= n] *)
Definition substring0 (n : nat) (s : t) : t := firstn n s.

(** The character class [a-zA-Z0-9]. *)
Definition is_alnum (c : N) : bool :=
  ((0x61 <=? c) && (c <=? 0x7A))
  || ((0x41 <=? c) && (c <=? 0x5A))
  || ((0x30 <=? c) && (c <=? 0x39)).

Definition underscore : N := 0x5F.

(** A code unit of [a-zA-Z0-9_]. *)
Definition is_safe (c : N) : bool := is_alnum c || (c =? underscore).

(** [s.replace(/[^a-zA-Z0-9]/g, '_')]: the pattern matches exactly one
    code unit, so the global replacement is a map over the code units. *)
Definition replace_non_alnum (s : t) : t :=
  map (fun c => if is_alnum c then c else underscore) s.

(** Decimal rendering of an integral Number, as a template literal
    [`${n}`] produces it. *)
Definition of_Z (z : Z) : t := lit (NilZero.string_of_int (Z.to_int z)).

(** [needle] occurs in [s] ([s.includes(needle)]). *)
Definition is_prefix (p s : t) : bool :=
  bool_decide (firstn (length p) s = p).

Fixpoint includes (needle s : t) : bool :=
  is_prefix needle s ||
  match s with
  | [] => false
  | _ :: r => includes needle r
  end.

End JsString.

Abbreviation jsstring := (list N) (only parsing).

(** [js "text"]: a string literal of the source. *)
Definition js (s : string) : jsstring := JsString.lit s.
Arguments js s%_string.

(** ** sanitizeFileName *)

(** [input.trim().replace(/[^a-zA-Z0-9]/g, '_').substring(0, 20)] *)
Definition sanitizeFileName (input : jsstring) : jsstring :=
  JsString.substring0 20 (JsString.replace_non_alnum (JsString.trim input)).


(** ** Values, errors and HTTP responses *)

(** The content of a [Buffer] or of a file. *)
Abbreviation bytes := (list Byte.byte) (only parsing).

(** A JavaScript value as [JSON.parse] can produce one, plus [undefined]
    (the result of reading a property that is not there).  A number is
    kept as the rational its literal denotes. *)
Inductive jsval : Type :=
| JUndefined
| JNull
| JBool (b : bool)
| JNum (q : Q)
| JStr (s : jsstring)
| JArr (items : list jsval)
| JObj (props : list (jsstring * jsval)).

(** What came back in [response.data]: parsed JSON (the default
    [responseType]) or a byte buffer ([responseType: "arraybuffer"]). *)
Inductive body : Type :=
| JsonBody (v : jsval)
| BufferBody (b : bytes).

(** The values the program can see thrown. *)
Inductive jsError : Type :=
| AxiosError (code : jsstring) (response : option (Z * body))
    (* raised by axios: no response at all, or a response whose status
       axios refuses; [error.response] holds status and data *)
| TypeError (base : jsval) (member : jsstring)
    (* reading or calling [member] on [base] failed *)
| NewError (message : jsval)
    (* [new Error(message)] *)
| SystemError (code : jsstring) (path : jsstring).
    (* raised by [fs]: [EISDIR], [EACCES], [ENOENT], ... *)

(** A settled promise / the outcome of a block that may throw. *)
Inductive result (A : Type) : Type :=
| Resolved (a : A)
| Rejected (e : jsError).
Arguments Resolved {A} a.
Arguments Rejected {A} e.

Record response (D : Type) : Type := mkResponse { status : Z; data : D }.
Arguments mkResponse {D} status data.
Arguments status {D} r.
Arguments data {D} r.

(** ** Requests *)

(** The JSON payload of the chat-completion call. *)
Record chat_payload : Type := mkChat {
  model : jsstring;
  messages : list (jsstring * jsstring);   (* role, content *)
  max_tokens : Z;
  temperature : Q
}.

(** A [FormData] entry appended by the source: a string, or the read
    stream of a file ([fs.createReadStream(path)]). *)
Inductive form_value : Type :=
| FormText (s : jsstring)
| FormStream (path : jsstring).

Abbreviation form := (list (jsstring * form_value)) (only parsing).

Inductive response_type : Type := RtJson | RtArrayBuffer.

(** [axios.post(url, data, { headers, responseType })].  The headers that
    [formData.getHeaders()] spreads in (the multipart content type with
    its random boundary) are not listed. *)
Record request (B : Type) : Type := mkRequest {
  url : jsstring;
  headers : list (jsstring * jsstring);
  responseType : response_type;
  payload : B
}.
Arguments mkRequest {B} url headers responseType payload.
Arguments url {B} r.
Arguments headers {B} r.
Arguments responseType {B} r.
Arguments payload {B} r.

(** ** Observable events and the machine state *)

(** Console lines.  The elapsed times printed next to some of them are
    wall-clock readings ([Date.now()]) and are not part of the model. *)
Inductive console_line : Type :=
| LogOptimizedPrompt (p : jsstring)          (* `Optimized Prompt: ${p}` *)
| LogImageGenerated (path : jsstring)        (* `Image generated successfully at: ...` *)
| LogUsingImage (path : jsstring)            (* `Using generated image: ...` *)
| LogModelGenerated (path : jsstring)        (* `3D model generated successfully at: ...` *)
| LogElapsed                                 (* `Elapsed Time - Image Generation: ...` *)
| LogModelSaved (path : jsstring)            (* `3D Model saved at: ...` *)
| ErrOpenAIStatus (status : Z)               (* `OpenAI API call failed with status: ...` *)
| ErrCaught (label : jsstring) (e : jsError). (* console.error(label, error) *)

Inductive event : Type :=
| EvPostJson (r : request chat_payload)
| EvPostForm (r : request form)
| EvWriteFile (path : jsstring) (content : bytes)
| EvConsole (l : console_line).

(** The files on disk and everything the program did so far, oldest
    event first. *)
Record state : Type := mkState {
  fs : gmap jsstring bytes;
  trace : list event
}.

(** The environment of one invocation: what [axios.post] settles to for
    a request (a real network behind the real axios, or a test double),
    how a [Buffer] reads as text ([Buffer.prototype.toString]), and
    whether [fs.writeFileSync] throws for a write on the disk as it is
    (a directory at the path, a missing permission, ...) and with what.
    A form post consumes the streams of the form, hence sees the disk. *)
Record world : Type := mkWorld {
  axios_post_json : request chat_payload -> result (response jsval);
  axios_post_form : gmap jsstring bytes -> request form -> result (response bytes);
  Buffer_toString : bytes -> jsstring;
  fs_write_error : gmap jsstring bytes -> jsstring -> bytes -> option jsError
}.

(** The module-level constants, read once at load time. *)
Record config : Type := mkConfig {
  dirname : jsstring;               (* __dirname *)
  stabilityAIKey : jsstring;
  openAIKey : jsstring;
  promptModifierImage : jsstring;   (* promptModifier_ImageGenerator.txt *)
  systemPrompt : jsstring           (* system-prompt.txt *)
}.

(** ** Reading parsed JSON *)

Module Js.

(** Own property [k] of an object, [undefined] when absent. *)
Fixpoint own_prop (k : jsstring) (props : list (jsstring * jsval)) : jsval :=
  match props with
  | [] => JUndefined
  | (k', v) :: rest => if decide (k = k') then v else own_prop k rest
  end.

(** [v.k] for the property names the source reads ([choices],
    [message], [content], [error]): none of them is defined by a
    built-in prototype, so on anything but an object the read gives
    [undefined], and on [undefined] or [null] it throws. *)
Definition get (v : jsval) (k : jsstring) : result jsval :=
  match v with
  | JUndefined | JNull => Rejected (TypeError v k)
  | JObj props => Resolved (own_prop k props)
  | _ => Resolved JUndefined
  end.

(** [v[0]] *)
Definition first (v : jsval) : result jsval :=
  match v with
  | JUndefined | JNull => Rejected (TypeError v (js "0"))
  | JArr items => Resolved (match items with [] => JUndefined | x :: _ => x end)
  | JStr s => Resolved (match s with [] => JUndefined | c :: _ => JStr [c] end)
  | JObj props => Resolved (own_prop (js "0") props)
  | _ => Resolved JUndefined
  end.

(** [v.trim()]: only a string has the method. *)
Definition call_trim (v : jsval) : result jsstring :=
  match v with
  | JStr s => Resolved (JsString.trim s)
  | _ => Rejected (TypeError v (js "trim"))
  end.

(** ToBoolean *)
Definition truthy (v : jsval) : bool :=
  match v with
  | JUndefined | JNull => false
  | JBool b => b
  | JNum q => negb (Qeq_bool q 0)
  | JStr s => negb (bool_decide (s = []))
  | JArr _ | JObj _ => true
  end.

(** [a || b] *)
Definition or (a b : jsval) : jsval := if truthy a then a else b.

End Js.

(** ** Paths *)

(** [path.resolve(dir, name)] on a POSIX system, for the only shape the
    source uses: [dir] is [__dirname] (absolute, normalized, no trailing
    separator) and [name] is a single segment without separator. *)
Definition path_resolve (dir name : jsstring) : jsstring :=
  dir ++ js "/" ++ name.

(** ** Computations *)

(** A computation runs from a state and settles, leaving a state. *)
Definition M (A : Type) : Type := state -> result A * state.

#[global] Instance M_ret : MRet M :=
  fun A (a : A) (s : state) => (Resolved a, s).

#[global] Instance M_bind : MBind M :=
  fun A B (f : A -> M B) (m : M A) (s : state) =>
    match m s with
    | (Resolved a, s') => f a s'
    | (Rejected e, s') => (Rejected e, s')
    end.

(** [throw e] *)
Definition throw {A : Type} (e : jsError) : M A :=
  fun s => (Rejected e, s).

(** A pure expression that may throw. *)
Definition lift {A : Type} (r : result A) : M A :=
  fun s => (r, s).

(** [try { body } catch (error) { handler }] *)
Definition try_catch {A : Type} (body : M A) (handler : jsError -> M A) : M A :=
  fun s =>
    match body s with
    | (Resolved a, s') => (Resolved a, s')
    | (Rejected e, s') => handler e s'
    end.

Definition emit (e : event) : M unit :=
  fun s => (Resolved tt, mkState (fs s) (trace s ++ [e])).

Definition console (l : console_line) : M unit := emit (EvConsole l).

(** [fs.writeFileSync(path, content)]: creates or replaces the file,
    or throws.  A write that throws does so when the file is opened: it
    leaves the disk as it is, and the trace records only the writes
    that took place. *)
Definition writeFileSync (w : world) (path : jsstring) (content : bytes) : M unit :=
  fun s =>
    match fs_write_error w (fs s) path content with
    | Some e => (Rejected e, s)
    | None =>
      (Resolved tt,
       mkState (<[path := content]> (fs s)) (trace s ++ [EvWriteFile path content]))
    end.

(** [await axios.post(...)] *)
Definition post_json (w : world) (r : request chat_payload) : M (response jsval) :=
  fun s => (axios_post_json w r, mkState (fs s) (trace s ++ [EvPostJson r])).

Definition post_form (w : world) (r : request form) : M (response bytes) :=
  fun s => (axios_post_form w (fs s) r, mkState (fs s) (trace s ++ [EvPostForm r])).

(** ** Endpoints *)

Definition chatUrl : jsstring := js "https://api.openai.com/v1/chat/completions".
Definition imageUrl : jsstring := js "https://api.stability.ai/v2beta/stable-image/generate/core".
Definition modelUrl : jsstring := js "https://api.stability.ai/v2beta/3d/stable-fast-3d".

Definition bearer (key : jsstring) : jsstring := js "Bearer " ++ key.

Definition pngName (prompt : jsstring) : jsstring :=
  js "gen_" ++ sanitizeFileName prompt ++ js ".png".

Definition glbName (prompt : jsstring) : jsstring :=
  js "gen_" ++ sanitizeFileName prompt ++ js ".glb".

(** [catch (error) { console.error(label, error); throw error; }]: the
    catch block of each of the three functions. *)
Definition log_and_rethrow {A : Type} (label : jsstring) (error : jsError) : M A :=
  console (ErrCaught label error);;
  throw error.

(** The events a run appended to the trace. *)
Definition events_since (s s' : state) : list event :=
  drop (length (trace s)) (trace s').

Section Pipeline.

Variable cfg : config.
Variable w : world.

(** *** optimizePrompt (first variant only) *)

Definition chatRequest (inputPrompt modifier : jsstring) : request chat_payload :=
  mkRequest chatUrl
    [(js "Authorization", bearer (openAIKey cfg));
     (js "Content-Type", js "application/json")]
    RtJson
    (mkChat (js "gpt-4")
       [(js "system", modifier); (js "user", inputPrompt)]
       100 (7 # 10)).

(** [response.data.choices[0].message.content] *)
Definition choice_content (responseData : jsval) : result jsval :=
  match Js.get responseData (js "choices") with
  | Rejected e => Rejected e
  | Resolved choices =>
    match Js.first choices with
    | Rejected e => Rejected e
    | Resolved choice =>
      match Js.get choice (js "message") with
      | Rejected e => Rejected e
      | Resolved message => Js.get message (js "content")
      end
    end
  end.

(** [response.data.error.message] *)
Definition error_message (responseData : jsval) : result jsval :=
  match Js.get responseData (js "error") with
  | Rejected e => Rejected e
  | Resolved error => Js.get error (js "message")
  end.

(** The [try] block. *)
Definition optimizePrompt_block (inputPrompt modifier : jsstring) : M jsstring :=
  response ← post_json w (chatRequest inputPrompt modifier);
  if (status response =? 200)%Z then
    content ← lift (choice_content (data response));
    optimizedPrompt ← lift (Js.call_trim content);
    console (LogOptimizedPrompt optimizedPrompt);;
    mret optimizedPrompt
  else
    console (ErrOpenAIStatus (status response));;
    message ← lift (error_message (data response));
    throw (NewError (Js.or message (JStr (js "Unknown error occurred")))).

Definition optimizePrompt (inputPrompt modifier : jsstring) : M jsstring :=
  try_catch (optimizePrompt_block inputPrompt modifier)
    (log_and_rethrow (js "Error optimizing prompt:")).

(** *** The part both [generateImage] share: post the form, then write
    the file named after [prompt]. *)

Definition imageRequest (f : form) : request form :=
  mkRequest imageUrl
    [(js "Authorization", bearer (stabilityAIKey cfg));
     (js "Accept", js "image/*")]
    RtArrayBuffer f.

Definition pngPath (prompt : jsstring) : jsstring :=
  path_resolve (dirname cfg) (pngName prompt).

Definition glbPath (prompt : jsstring) : jsstring :=
  path_resolve (dirname cfg) (glbName prompt).

Definition status_error (what : jsstring) (response : response bytes) : jsError :=
  NewError (JStr (what ++ JsString.of_Z (status response) ++ js " - "
                    ++ Buffer_toString w (data response))).

(** The [try] block.  [Buffer.from(response.data)] copies the bytes. *)
Definition generateImage_block (prompt : jsstring) (f : form) : M jsstring :=
  response ← post_form w (imageRequest f);
  if (status response =? 200)%Z then
    let imagePath := pngPath prompt in
    writeFileSync w imagePath (data response);;
    console (LogImageGenerated imagePath);;
    mret imagePath
  else
    throw (status_error (js "Image generation failed: ") response).

Definition generateImage_post (prompt : jsstring) (f : form) : M jsstring :=
  try_catch (generateImage_block prompt f)
    (log_and_rethrow (js "Error generating image:")).

(** *** generate3DModel, given the variant's [generateImage] *)

Definition modelRequest (inputImagePath : jsstring) : request form :=
  mkRequest modelUrl
    [(js "Authorization", bearer (stabilityAIKey cfg))]
    RtArrayBuffer
    [(js "image", FormStream inputImagePath);
     (js "texture_resolution", FormText (js "512"));
     (js "foreground_ratio", FormText (js "0.7"))].

(** The [try] block. *)
Definition generate3DModel_block (generateImage : jsstring -> M jsstring)
    (prompt : jsstring) : M jsstring :=
  inputImagePath ← generateImage prompt;
  console (LogUsingImage inputImagePath);;
  response ← post_form w (modelRequest inputImagePath);
  if (status response =? 200)%Z then
    let outputPath := glbPath prompt in
    writeFileSync w outputPath (data response);;
    console (LogModelGenerated outputPath);;
    console LogElapsed;;
    mret outputPath
  else
    throw (status_error (js "3D model generation failed: ") response).

Definition generate3DModel_with (generateImage : jsstring -> M jsstring)
    (prompt : jsstring) : M jsstring :=
  try_catch (generate3DModel_block generateImage prompt)
    (log_and_rethrow (js "Error generating 3D model:")).

(** The self-invoked test driver at the end of each file. *)
Definition main_with (generate3DModel : jsstring -> M jsstring)
    (inputPrompt : jsstring) : M unit :=
  try_catch
    (modelPath ← generate3DModel inputPrompt;
     console (LogModelSaved modelPath))
    (fun error => console (ErrCaught (js "Failed to generate 3D model:") error)).

End Pipeline.

(** ** First variant: the prompt is optimized by a chat completion *)

Module Optimizer.
Section Variant.

Variable cfg : config.
Variable w : world.

Definition imageForm (optimizedPrompt : jsstring) : form :=
  [(js "prompt", FormText optimizedPrompt);
   (js "output_format", FormText (js "png"))].

(** The optimizer is awaited before the [try] block is entered. *)
Definition generateImage (prompt : jsstring) : M jsstring :=
  optimizedPrompt ← optimizePrompt cfg w prompt (promptModifierImage cfg);
  generateImage_post cfg w prompt (imageForm optimizedPrompt).

Definition generate3DModel (prompt : jsstring) : M jsstring :=
  generate3DModel_with cfg w generateImage prompt.

Definition defaultPrompt : jsstring :=
  js "a friendly squirrel with a yellow hat and red sunglasses. it smiles nicely and is very (!!!) cute.".

(** [process.argv[2] || "a friendly squirrel ..."] *)
Definition main (argv2 : option jsstring) : M unit :=
  main_with generate3DModel
    (match argv2 with
     | Some (c :: r) => c :: r
     | _ => defaultPrompt
     end).

End Variant.
End Optimizer.

(** ** Second variant: the system prompt is prefixed to the prompt *)

Module SystemPrompt.
Section Variant.

Variable cfg : config.
Variable w : world.

Definition imageForm (prompt : jsstring) : form :=
  let fullPrompt := JsString.trim (systemPrompt cfg) ++ js " " ++ prompt in
  [(js "prompt", FormText fullPrompt);
   (js "width", FormText (js "512"));
   (js "height", FormText (js "512"));
   (js "output_format", FormText (js "png"))].

Definition generateImage (prompt : jsstring) : M jsstring :=
  generateImage_post cfg w prompt (imageForm prompt).

Definition generate3DModel (prompt : jsstring) : M jsstring :=
  generate3DModel_with cfg w generateImage prompt.

Definition main : M unit :=
  main_with generate3DModel Optimizer.defaultPrompt.

End Variant.
End SystemPrompt.

(** ** Either variant *)

Inductive variant : Type := WithOptimizer | WithSystemPrompt.

Definition generateImage_of (v : variant) : config -> world -> jsstring -> M jsstring :=
  match v with
  | WithOptimizer => Optimizer.generateImage
  | WithSystemPrompt => SystemPrompt.generateImage
  end.

Definition generate3DModel_of (v : variant) : config -> world -> jsstring -> M jsstring :=
  match v with
  | WithOptimizer => Optimizer.generate3DModel
  | WithSystemPrompt => SystemPrompt.generate3DModel
  end.

(** ** A concrete environment, to run the model *)

Module Demo.

Definition cfg : config :=
  mkConfig (js "/app/dist") (js "sk-stability") (js "sk-openai")
    (js "Rewrite the prompt for an image generator.")
    (js "  A single centered object on a white background. ").

Definition chatOk (content : jsstring) : jsval :=
  JObj [(js "id", JStr (js "chatcmpl-1"));
        (js "choices",
         JArr [JObj [(js "index", JNum 0);
                     (js "message",
                      JObj [(js "role", JStr (js "assistant"));
                            (js "content", JStr content)])]])].

Definition imageBytes : bytes := [Byte.x89; Byte.x50; Byte.x4e; Byte.x47].
Definition modelBytes : bytes := [Byte.x67; Byte.x6c; Byte.x54; Byte.x46].
Definition failBytes : bytes := [Byte.x6f; Byte.x6f; Byte.x70; Byte.x73].

(** Bytes read as Latin-1, enough for the ASCII bodies used here. *)
Definition latin1 (b : bytes) : jsstring := map Byte.to_N b.

(** A disk on which every write goes through. *)
Definition writable (disk : gmap jsstring bytes) (path : jsstring) (content : bytes)
  : option jsError := None.

(** A disk on which no file can be created where [taken] is: there is a
    directory of that name. *)
Definition directory_at (taken : jsstring)
    (disk : gmap jsstring bytes) (path : jsstring) (content : bytes) : option jsError :=
  if bool_decide (path = taken) then Some (SystemError (js "EISDIR") path) else None.

(** An axios that resolves whatever the status is (a test double):
    the chat answers 200, the image endpoint [imageStatus], the 3D
    endpoint [modelStatus]. *)
Definition respond (st : Z) (ok other : bytes) : result (response bytes) :=
  Resolved (mkResponse st (if (st =? 200)%Z then ok else other)).

Definition world_of (imageStatus modelStatus : Z) : world :=
  mkWorld
    (fun _ => Resolved (mkResponse 200 (chatOk (js "  a glossy red cube, studio light  "))))
    (fun _ r =>
       if bool_decide (url r = modelUrl)
       then respond modelStatus modelBytes failBytes
       else respond imageStatus imageBytes failBytes)
    latin1 writable.

(** The real axios: a status outside 2xx rejects the promise. *)
Definition settle {D : Type} (wrap : D -> body) (st : Z) (d : D) : result (response D) :=
  if ((200 <=? st) && (st <? 300))%Z
  then Resolved (mkResponse st d)
  else Rejected (AxiosError (js "ERR_BAD_RESPONSE") (Some (st, wrap d))).

Definition axios_world_of (imageStatus modelStatus : Z) : world :=
  mkWorld
    (fun _ => settle JsonBody 200 (chatOk (js "a glossy red cube")))
    (fun _ r =>
       if bool_decide (url r = modelUrl)
       then settle BufferBody modelStatus (if (modelStatus =? 200)%Z then modelBytes else failBytes)
       else settle BufferBody imageStatus (if (imageStatus =? 200)%Z then imageBytes else failBytes))
    latin1 writable.

Definition s0 : state := mkState ∅ [].

(** Every endpoint answers 200 to every request, but a directory named
    [gen_a_red_cube.png] sits where the image of ["a red cube"] goes. *)
Definition blocked_world : world :=
  mkWorld (axios_post_json (world_of 200 200)) (axios_post_form (world_of 200 200))
    latin1 (directory_at (js "/app/dist/gen_a_red_cube.png")).

End Demo.

(** ** Vocabulary of the properties *)

(** The promise of [axios.post] resolved with a response of status 200:
    the only case in which the source writes a file. *)
Definition resolves_200 {D : Type} (o : result (response D)) : bool :=
  match o with
  | Resolved r => (status r =? 200)%Z
  | Rejected _ => false
  end.

(** The endpoint answered with HTTP status [st]: axios either resolved
    with that response, or refused the status and rejected with an error
    holding the response. *)
Definition answered_status {D : Type} (o : result (response D)) (st : Z) : Prop :=
  match o with
  | Resolved r => status r = st
  | Rejected (AxiosError _ (Some (st', _))) => st' = st
  | Rejected _ => False
  end.

(** The error names HTTP status [st]: in [error.response.status] for an
    error of axios, in the text of the message for an [Error]. *)
Definition references_status (e : jsError) (st : Z) : Prop :=
  match e with
  | AxiosError _ (Some (st', _)) => st' = st
  | NewError (JStr m) => JsString.includes (JsString.of_Z st) m = true
  | _ => False
  end.

(** The URL an event posts to, if it is a request. *)
Definition posted_url (e : event) : option jsstring :=
  match e with
  | EvPostJson r => Some (url r)
  | EvPostForm r => Some (url r)
  | _ => None
  end.

(** The files a trace wrote, in order. *)
Definition writes (evs : list event) : list (jsstring * bytes) :=
  omap (fun e => match e with EvWriteFile p c => Some (p, c) | _ => None end) evs.

(** Path of the output files without the extension. *)
Definition stemPath (cfg : config) (prompt : jsstring) : jsstring :=
  path_resolve (dirname cfg) (js "gen_" ++ sanitizeFileName prompt).

(** The error a form post ends in, if any: the rejection of axios, or
    the [Error] the source builds for a status other than 200. *)
Definition failure_of (w : world) (what : jsstring)
    (o : result (response bytes)) : option jsError :=
  match o with
  | Rejected e => Some e
  | Resolved resp =>
    if (status resp =? 200)%Z then None else Some (status_error w what resp)
  end.

(** The error a stage ends in, if any, the write of its file included:
    the stage writes the body of a response of status 200 to [path] on
    the disk [disk]. *)
Definition stage_failure (w : world) (what : jsstring)
    (disk : gmap jsstring bytes) (path : jsstring)
    (o : result (response bytes)) : option jsError :=
  match o with
  | Rejected e => Some e
  | Resolved resp =>
    if (status resp =? 200)%Z
    then fs_write_error w disk path (data resp)
    else Some (status_error w what resp)
  end.

Definition is_console (e : event) : Prop :=
  match e with
  | EvConsole _ => True
  | _ => False
  end.

(** The state after more events, the disk untouched. *)
Definition logged (s : state) (evs : list event) : state :=
  mkState (fs s) (trace s ++ evs).

(** ** Vocabulary of the further properties *)

(** The value of a header of a request. *)
Fixpoint header (name : jsstring) (hs : list (jsstring * jsstring)) : option jsstring :=
  match hs with
  | [] => None
  | (k, v) :: rest => if decide (k = name) then Some v else header name rest
  end.

(** What a request of the pipeline must look like: a JSON post goes to
    the chat endpoint with the OpenAI key, a form post goes to one of
    the two Stability endpoints with the Stability key. *)
Definition well_addressed (cfg : config) (e : event) : Prop :=
  match e with
  | EvPostJson r =>
    url r = chatUrl
    /\ header (js "Authorization") (headers r) = Some (bearer (openAIKey cfg))
  | EvPostForm r =>
    (url r = imageUrl \/ url r = modelUrl)
    /\ header (js "Authorization") (headers r) = Some (bearer (stabilityAIKey cfg))
  | _ => True
  end.

(** The error a console line reports, if it is a [console.error] of a
    catch block. *)
Definition caught_error (e : event) : option jsError :=
  match e with
  | EvConsole (ErrCaught _ err) => Some err
  | _ => None
  end.

(** The prompt the test driver of the first variant runs on:
    [process.argv[2] || defaultPrompt]. *)
Definition driver_prompt (argv2 : option jsstring) : jsstring :=
  match argv2 with
  | Some (c :: r) => c :: r
  | _ => Optimizer.defaultPrompt
  end.

(** The test driver of either variant; the second one takes no
    argument. *)
Definition main_of (v : variant) (cfg : config) (w : world)
    (argv2 : option jsstring) : M unit :=
  match v with
  | WithOptimizer => Optimizer.main cfg w argv2
  | WithSystemPrompt => SystemPrompt.main cfg w
  end.

Definition main_prompt (v : variant) (argv2 : option jsstring) : jsstring :=
  match v with
  | WithOptimizer => driver_prompt argv2
  | WithSystemPrompt => Optimizer.defaultPrompt
  end.

(** Unfolding one step of a computation. *)
Ltac run_step :=
  unfold mbind, M_bind, mret, M_ret, lift, throw, console, emit,
    post_json, post_form, writeFileSync, logged; simpl.

(** * Properties *)

(** ** The sanitizer *)

Example sanitize_squirrel :
  sanitizeFileName (js "a friendly squirrel with a yellow hat") = js "a_friendly_squirrel_".
Proof. reflexivity. Qed.

Example sanitize_red_cube :
  sanitizeFileName (js "  a red cube ") = js "a_red_cube".
Proof. reflexivity. Qed.

(** A character outside the BMP is two code units, hence two ['_']. *)
Example sanitize_surrogate_pair :
  sanitizeFileName [0x63; 0xD83D; 0xDE00; 0xE9] = js "c___".
Proof. reflexivity. Qed.

(** The prompt is trimmed before it is cut, not after. *)
Example sanitize_trims_first :
  sanitizeFileName (js "   12345678901234567 9 end") = js "12345678901234567_9_".
Proof. reflexivity. Qed.

Section Sanitizer.

Import JsString.

Lemma safe_not_white c : is_safe c = true -> is_white c = false.
Proof. unfold is_safe, is_alnum, is_white, underscore. lia. Qed.

Lemma replace_char_safe c : is_safe (if is_alnum c then c else underscore) = true.
Proof.
  unfold is_safe. destruct (is_alnum c) eqn:E.
  - rewrite E. reflexivity.
  - reflexivity.
Qed.

Lemma replace_char_fixed c :
  is_safe c = true -> (if is_alnum c then c else underscore) = c.
Proof.
  unfold is_safe. destruct (is_alnum c); [reflexivity |].
  simpl. intros H. apply N.eqb_eq in H. congruence.
Qed.

Lemma replace_non_alnum_safe s :
  Forall (fun c => is_safe c = true) (replace_non_alnum s).
Proof.
  unfold replace_non_alnum. induction s as [| c s IH]; simpl; constructor.
  - apply replace_char_safe.
  - exact IH.
Qed.

Lemma replace_non_alnum_fixed s :
  Forall (fun c => is_safe c = true) s -> replace_non_alnum s = s.
Proof.
  unfold replace_non_alnum. induction 1 as [| c s Hc _ IH]; simpl.
  - reflexivity.
  - rewrite replace_char_fixed by assumption. f_equal. exact IH.
Qed.

Lemma trimStart_fixed s : Forall (fun c => is_safe c = true) s -> trimStart s = s.
Proof.
  destruct 1 as [| c s Hc _]; simpl; [reflexivity |].
  rewrite safe_not_white by assumption. reflexivity.
Qed.

Lemma trim_fixed s : Forall (fun c => is_safe c = true) s -> trim s = s.
Proof.
  intros H. unfold trim, trimEnd. rewrite (trimStart_fixed s H).
  rewrite trimStart_fixed.
  - apply rev_involutive.
  - apply Forall_rev. exact H.
Qed.

Lemma trimStart_white s : Forall (fun c => is_white c = true) s -> trimStart s = [].
Proof.
  induction 1 as [| c s Hc _ IH]; simpl; [reflexivity |].
  rewrite Hc. exact IH.
Qed.

Lemma sanitizeFileName_safe s : Forall (fun c => is_safe c = true) (sanitizeFileName s).
Proof.
  unfold sanitizeFileName, substring0. apply Forall_take, replace_non_alnum_safe.
Qed.

Lemma sanitizeFileName_length s : (length (sanitizeFileName s) <= 20)%nat.
Proof.
  unfold sanitizeFileName, substring0. rewrite length_take. lia.
Qed.

Lemma sanitizeFileName_fixed s :
  Forall (fun c => is_safe c = true) s -> (length s <= 20)%nat -> sanitizeFileName s = s.
Proof.
  intros Hs Hl. unfold sanitizeFileName, substring0.
  rewrite trim_fixed, replace_non_alnum_fixed by assumption.
  apply take_ge. exact Hl.
Qed.

Lemma sanitizeFileName_white s :
  Forall (fun c => is_white c = true) s -> sanitizeFileName s = [].
Proof.
  intros H. unfold sanitizeFileName, trim.
  rewrite trimStart_white by assumption. reflexivity.
Qed.

(** C9: [sanitizeFileName] is idempotent, its result has at most 20
    code units, all of them in [a-zA-Z0-9_]; a prompt made of white
    space only (the empty prompt included) is sanitized to the empty
    stem, hence names the files [gen_.png] and [gen_.glb]. *)
Theorem sanitizeFileName_idempotent_bounded_safe (input : jsstring) :
  sanitizeFileName (sanitizeFileName input) = sanitizeFileName input
  /\ (length (sanitizeFileName input) <= 20)%nat
  /\ Forall (fun c => is_alnum c || (c =? 0x5F) = true) (sanitizeFileName input)
  /\ (Forall (fun c => is_white c = true) input ->
      sanitizeFileName input = []
      /\ pngName input = js "gen_.png"
      /\ glbName input = js "gen_.glb").
Proof.
  split; [| split; [| split]].
  - apply sanitizeFileName_fixed.
    + apply sanitizeFileName_safe.
    + apply sanitizeFileName_length.
  - apply sanitizeFileName_length.
  - apply sanitizeFileName_safe.
  - intros H. unfold pngName, glbName.
    rewrite sanitizeFileName_white by assumption. repeat split.
Qed.

End Sanitizer.

(** The blank prompt [" \t\n"], and the empty one. *)
Lemma sanitizeFileName_blank_witness :
  (sanitizeFileName (js "") = [] /\ pngName (js "") = js "gen_.png")
  /\ sanitizeFileName [0x20; 0x09; 0x0A; 0x3000] = []
  /\ glbName [0x20; 0x09; 0x0A; 0x3000] = js "gen_.glb".
Proof.
  split.
  - destruct (sanitizeFileName_idempotent_bounded_safe (js "")) as (_ & _ & _ & H).
    destruct H as (H1 & H2 & _); [constructor |]. split; assumption.
  - destruct (sanitizeFileName_idempotent_bounded_safe [0x20; 0x09; 0x0A; 0x3000])
      as (_ & _ & _ & H).
    destruct H as (H1 & _ & H3); [repeat constructor |]. split; assumption.
Defined.

(** ** Running the stages *)

Lemma logged_logged s evs1 evs2 : logged (logged s evs1) evs2 = logged s (evs1 ++ evs2).
Proof. unfold logged. simpl. rewrite <- app_assoc. reflexivity. Qed.

Lemma events_since_logged s evs : events_since s (logged s evs) = evs.
Proof. unfold events_since, logged. simpl. apply drop_app_length. Qed.

Lemma events_since_state s disk evs :
  events_since s (mkState disk (trace s ++ evs)) = evs.
Proof. unfold events_since. simpl. apply drop_app_length. Qed.

(** A catch block that logs and rethrows changes nothing but the
    console. *)
Lemma try_catch_rethrow {A : Type} (body : M A) (label : jsstring) (s : state) :
  try_catch body (log_and_rethrow label) s =
  match body s with
  | (Resolved a, s') => (Resolved a, s')
  | (Rejected e, s') => (Rejected e, logged s' [EvConsole (ErrCaught label e)])
  end.
Proof.
  unfold try_catch. destruct (body s) as [[a | e] s']; reflexivity.
Qed.


Lemma optimizePrompt_block_run cfg w inputPrompt modifier s :
  let req := chatRequest cfg inputPrompt modifier in
  optimizePrompt_block cfg w inputPrompt modifier s =
  match axios_post_json w req with
  | Rejected e => (Rejected e, logged s [EvPostJson req])
  | Resolved resp =>
    if (status resp =? 200)%Z then
      match choice_content (data resp) with
      | Rejected e => (Rejected e, logged s [EvPostJson req])
      | Resolved content =>
        match Js.call_trim content with
        | Rejected e => (Rejected e, logged s [EvPostJson req])
        | Resolved p =>
          (Resolved p, logged s [EvPostJson req; EvConsole (LogOptimizedPrompt p)])
        end
      end
    else
      let said := EvConsole (ErrOpenAIStatus (status resp)) in
      match error_message (data resp) with
      | Rejected e => (Rejected e, logged s [EvPostJson req; said])
      | Resolved m =>
        (Rejected (NewError (Js.or m (JStr (js "Unknown error occurred")))),
         logged s [EvPostJson req; said])
      end
  end.
Proof.
  intros req. unfold optimizePrompt_block. run_step. fold req.
  destruct (axios_post_json w req) as [resp | e]; [| reflexivity].
  destruct (status resp =? 200)%Z.
  - destruct (choice_content (data resp)) as [content | e]; [| reflexivity].
    destruct (Js.call_trim content) as [p | e]; [| reflexivity].
    simpl. rewrite <- app_assoc. reflexivity.
  - simpl. rewrite <- app_assoc. simpl.
    destruct (error_message (data resp)) as [m | e]; reflexivity.
Qed.

Lemma generateImage_block_run cfg w prompt f s :
  let req := imageRequest cfg f in
  let png := pngPath cfg prompt in
  generateImage_block cfg w prompt f s =
  match axios_post_form w (fs s) req with
  | Rejected e => (Rejected e, logged s [EvPostForm req])
  | Resolved resp =>
    if (status resp =? 200)%Z then
      match fs_write_error w (fs s) png (data resp) with
      | Some e => (Rejected e, logged s [EvPostForm req])
      | None =>
        (Resolved png,
         mkState (<[png := data resp]> (fs s))
           (trace s ++ [EvPostForm req; EvWriteFile png (data resp);
                        EvConsole (LogImageGenerated png)]))
      end
    else
      (Rejected (status_error w (js "Image generation failed: ") resp),
       logged s [EvPostForm req])
  end.
Proof.
  intros req png. unfold generateImage_block. run_step. fold req png.
  destruct (axios_post_form w (fs s) req) as [resp | e]; [| reflexivity].
  destruct (status resp =? 200)%Z; [| reflexivity].
  simpl. destruct (fs_write_error w (fs s) png (data resp)); [reflexivity |].
  simpl. rewrite <- !app_assoc. reflexivity.
Qed.

Lemma generate3DModel_block_run cfg w generateImage prompt s :
  let glb := glbPath cfg prompt in
  generate3DModel_block cfg w generateImage prompt s =
  match generateImage prompt s with
  | (Rejected e, s1) => (Rejected e, s1)
  | (Resolved p, s1) =>
    let req := modelRequest cfg p in
    let note := EvConsole (LogUsingImage p) in
    match axios_post_form w (fs s1) req with
    | Rejected e => (Rejected e, logged s1 [note; EvPostForm req])
    | Resolved resp =>
      if (status resp =? 200)%Z then
        match fs_write_error w (fs s1) glb (data resp) with
        | Some e => (Rejected e, logged s1 [note; EvPostForm req])
        | None =>
          (Resolved glb,
           mkState (<[glb := data resp]> (fs s1))
             (trace s1 ++ [note; EvPostForm req; EvWriteFile glb (data resp);
                           EvConsole (LogModelGenerated glb); EvConsole LogElapsed]))
        end
      else
        (Rejected (status_error w (js "3D model generation failed: ") resp),
         logged s1 [note; EvPostForm req])
    end
  end.
Proof.
  intros glb. unfold generate3DModel_block. run_step. fold glb.
  destruct (generateImage prompt s) as [[p | e] s1]; [| reflexivity].
  simpl.
  destruct (axios_post_form w (fs s1) (modelRequest cfg p)) as [resp | e];
    [| rewrite <- app_assoc; reflexivity].
  destruct (status resp =? 200)%Z.
  - simpl. destruct (fs_write_error w (fs s1) glb (data resp));
      simpl; rewrite <- !app_assoc; reflexivity.
  - rewrite <- app_assoc; reflexivity.
Qed.

Lemma failure_of_resolves_200 w what o :
  resolves_200 o = false <-> exists e, failure_of w what o = Some e.
Proof.
  destruct o as [resp | e]; simpl.
  - destruct (status resp =? 200)%Z; split; eauto; try discriminate.
    intros [e H]. discriminate.
  - split; eauto.
Qed.

Lemma stage_failure_unless_200 w what disk path o :
  resolves_200 o = false -> stage_failure w what disk path o = failure_of w what o.
Proof.
  destruct o as [resp | e]; simpl; [| reflexivity].
  destruct (status resp =? 200)%Z; [discriminate | reflexivity].
Qed.

Lemma optimizePrompt_cases cfg w inputPrompt modifier s :
  let req := chatRequest cfg inputPrompt modifier in
  (exists resp content p,
      axios_post_json w req = Resolved resp /\ status resp = 200%Z
      /\ choice_content (data resp) = Resolved content
      /\ Js.call_trim content = Resolved p
      /\ optimizePrompt cfg w inputPrompt modifier s =
         (Resolved p, logged s [EvPostJson req; EvConsole (LogOptimizedPrompt p)]))
  \/ (exists e said,
         optimizePrompt cfg w inputPrompt modifier s =
         (Rejected e,
          logged s (EvPostJson req :: said
                      ++ [EvConsole (ErrCaught (js "Error optimizing prompt:") e)]))
         /\ Forall is_console said
         /\ forall e', axios_post_json w req = Rejected e' -> e' = e).
Proof.
  intros req. unfold optimizePrompt.
  rewrite try_catch_rethrow, optimizePrompt_block_run. fold req.
  destruct (axios_post_json w req) as [resp | e].
  - destruct (Z.eqb_spec (status resp) 200) as [Hst | Hst].
    + destruct (choice_content (data resp)) as [content | e] eqn:Hc.
      * destruct (Js.call_trim content) as [p | e] eqn:Ht.
        -- left. exists resp, content, p. repeat split; assumption.
        -- right. exists e, []. rewrite logged_logged.
           repeat split; [constructor | discriminate].
      * right. exists e, []. rewrite logged_logged.
        repeat split; [constructor | discriminate].
    + right. simpl.
      destruct (error_message (data resp)) as [m | e];
        eexists _, [EvConsole (ErrOpenAIStatus (status resp))];
        rewrite logged_logged; (repeat split; [repeat constructor | discriminate]).
  - right. exists e, []. rewrite logged_logged.
    repeat split; [constructor | congruence].
Qed.

Lemma generateImage_post_cases cfg w prompt f s :
  let req := imageRequest cfg f in
  let png := pngPath cfg prompt in
  (exists img,
      axios_post_form w (fs s) req = Resolved (mkResponse 200 img)
      /\ generateImage_post cfg w prompt f s =
         (Resolved png,
          mkState (<[png := img]> (fs s))
            (trace s ++ [EvPostForm req; EvWriteFile png img;
                         EvConsole (LogImageGenerated png)])))
  \/ (exists e,
         stage_failure w (js "Image generation failed: ") (fs s) png
           (axios_post_form w (fs s) req) = Some e
         /\ generateImage_post cfg w prompt f s =
            (Rejected e,
             logged s [EvPostForm req;
                       EvConsole (ErrCaught (js "Error generating image:") e)])).
Proof.
  intros req png. unfold generateImage_post.
  rewrite try_catch_rethrow, generateImage_block_run. fold req png.
  destruct (axios_post_form w (fs s) req) as [[st img] | e]; simpl.
  - destruct (Z.eqb_spec st 200) as [-> | Hst].
    + destruct (fs_write_error w (fs s) png img) as [e |].
      * right. exists e. rewrite logged_logged. split; reflexivity.
      * left. exists img. split; reflexivity.
    + right. eexists. rewrite logged_logged. split; reflexivity.
  - right. exists e. rewrite logged_logged. split; reflexivity.
Qed.

Lemma generate3DModel_with_cases cfg w generateImage prompt s :
  let glb := glbPath cfg prompt in
  let label := js "Error generating 3D model:" in
  match generateImage prompt s with
  | (Rejected e, s1) =>
    generate3DModel_with cfg w generateImage prompt s =
    (Rejected e, logged s1 [EvConsole (ErrCaught label e)])
  | (Resolved p, s1) =>
    let req := modelRequest cfg p in
    let note := EvConsole (LogUsingImage p) in
    (exists mdl,
        axios_post_form w (fs s1) req = Resolved (mkResponse 200 mdl)
        /\ generate3DModel_with cfg w generateImage prompt s =
           (Resolved glb,
            mkState (<[glb := mdl]> (fs s1))
              (trace s1 ++ [note; EvPostForm req; EvWriteFile glb mdl;
                            EvConsole (LogModelGenerated glb); EvConsole LogElapsed])))
    \/ (exists e,
           stage_failure w (js "3D model generation failed: ") (fs s1) glb
             (axios_post_form w (fs s1) req) = Some e
           /\ generate3DModel_with cfg w generateImage prompt s =
              (Rejected e,
               logged s1 [note; EvPostForm req; EvConsole (ErrCaught label e)]))
  end.
Proof.
  intros glb label. unfold generate3DModel_with.
  rewrite try_catch_rethrow, generate3DModel_block_run. fold glb label.
  destruct (generateImage prompt s) as [[p | e] s1]; [| reflexivity].
  simpl.
  destruct (axios_post_form w (fs s1) (modelRequest cfg p)) as [[st mdl] | e]; simpl.
  - destruct (Z.eqb_spec st 200) as [-> | Hst].
    + destruct (fs_write_error w (fs s1) glb mdl) as [e |].
      * right. exists e. rewrite logged_logged. split; reflexivity.
      * left. exists mdl. split; reflexivity.
    + right. eexists. rewrite logged_logged. split; reflexivity.
  - right. exists e. rewrite logged_logged. split; reflexivity.
Qed.

(** ** Every run of the pipeline, case by case *)

Lemma logged_state s disk evs1 evs2 :
  logged (mkState disk (trace s ++ evs1)) evs2 = mkState disk (trace s ++ evs1 ++ evs2).
Proof. unfold logged. simpl. rewrite <- app_assoc. reflexivity. Qed.

(** The second variant: the image request fails, or the image is
    written and the 3D request fails, or both files are written. *)
Lemma SystemPrompt_cases cfg w prompt s :
  let png := pngPath cfg prompt in
  let glb := glbPath cfg prompt in
  let ireq := imageRequest cfg (SystemPrompt.imageForm cfg prompt) in
  let mreq := modelRequest cfg png in
  let errI e := EvConsole (ErrCaught (js "Error generating image:") e) in
  let err3 e := EvConsole (ErrCaught (js "Error generating 3D model:") e) in
  let image_events img :=
    [EvPostForm ireq; EvWriteFile png img; EvConsole (LogImageGenerated png)] in
  (exists e,
      stage_failure w (js "Image generation failed: ") (fs s) png
        (axios_post_form w (fs s) ireq) = Some e
      /\ SystemPrompt.generateImage cfg w prompt s =
         (Rejected e, logged s [EvPostForm ireq; errI e])
      /\ SystemPrompt.generate3DModel cfg w prompt s =
         (Rejected e, logged s [EvPostForm ireq; errI e; err3 e]))
  \/ (exists img e,
         axios_post_form w (fs s) ireq = Resolved (mkResponse 200 img)
         /\ stage_failure w (js "3D model generation failed: ") (<[png := img]> (fs s)) glb
              (axios_post_form w (<[png := img]> (fs s)) mreq) = Some e
         /\ SystemPrompt.generateImage cfg w prompt s =
            (Resolved png, mkState (<[png := img]> (fs s)) (trace s ++ image_events img))
         /\ SystemPrompt.generate3DModel cfg w prompt s =
            (Rejected e,
             mkState (<[png := img]> (fs s))
               (trace s ++ image_events img
                  ++ [EvConsole (LogUsingImage png); EvPostForm mreq; err3 e])))
  \/ (exists img mdl,
         axios_post_form w (fs s) ireq = Resolved (mkResponse 200 img)
         /\ axios_post_form w (<[png := img]> (fs s)) mreq = Resolved (mkResponse 200 mdl)
         /\ SystemPrompt.generateImage cfg w prompt s =
            (Resolved png, mkState (<[png := img]> (fs s)) (trace s ++ image_events img))
         /\ SystemPrompt.generate3DModel cfg w prompt s =
            (Resolved glb,
             mkState (<[glb := mdl]> (<[png := img]> (fs s)))
               (trace s ++ image_events img
                  ++ [EvConsole (LogUsingImage png); EvPostForm mreq;
                      EvWriteFile glb mdl; EvConsole (LogModelGenerated glb);
                      EvConsole LogElapsed]))).
Proof.
  intros png glb ireq mreq errI err3 image_events.
  unfold SystemPrompt.generate3DModel.
  pose proof (generate3DModel_with_cases cfg w (SystemPrompt.generateImage cfg w) prompt s) as H3.
  simpl in H3. unfold SystemPrompt.generateImage in *.
  destruct (generateImage_post_cases cfg w prompt (SystemPrompt.imageForm cfg prompt) s)
    as [(img & Hpost & Hrun) | (e & Hfail & Hrun)];
    fold ireq png in Hpost || fold ireq png in Hfail; fold ireq png in Hrun;
    rewrite Hrun in H3.
  - simpl in H3. fold png glb mreq in H3.
    destruct H3 as [(mdl & Hpost3 & H3) | (e & Hfail3 & H3)].
    + right; right. exists img, mdl. rewrite H3. simpl. rewrite <- app_assoc.
      repeat split; assumption.
    + right; left. exists img, e. rewrite H3, logged_state.
      repeat split; assumption.
  - left. exists e. rewrite H3, logged_logged. repeat split; assumption.
Qed.

(** The first variant: the optimizer fails, or the image request fails,
    or the image is written and the 3D request fails, or both files are
    written. *)
Lemma Optimizer_cases cfg w prompt s :
  let png := pngPath cfg prompt in
  let glb := glbPath cfg prompt in
  let creq := chatRequest cfg prompt (promptModifierImage cfg) in
  let ireq op := imageRequest cfg (Optimizer.imageForm op) in
  let mreq := modelRequest cfg png in
  let errO e := EvConsole (ErrCaught (js "Error optimizing prompt:") e) in
  let errI e := EvConsole (ErrCaught (js "Error generating image:") e) in
  let err3 e := EvConsole (ErrCaught (js "Error generating 3D model:") e) in
  let chat_events op := [EvPostJson creq; EvConsole (LogOptimizedPrompt op)] in
  let image_events op img :=
    chat_events op
      ++ [EvPostForm (ireq op); EvWriteFile png img; EvConsole (LogImageGenerated png)] in
  let optimized op :=
    optimizePrompt cfg w prompt (promptModifierImage cfg) s =
    (Resolved op, logged s (chat_events op)) in
  (exists e said,
      Forall is_console said
      /\ optimizePrompt cfg w prompt (promptModifierImage cfg) s =
         (Rejected e, logged s (EvPostJson creq :: said ++ [errO e]))
      /\ Optimizer.generateImage cfg w prompt s =
         (Rejected e, logged s (EvPostJson creq :: said ++ [errO e]))
      /\ Optimizer.generate3DModel cfg w prompt s =
         (Rejected e, logged s (EvPostJson creq :: said ++ [errO e; err3 e])))
  \/ (exists op e,
         optimized op
         /\ stage_failure w (js "Image generation failed: ") (fs s) png
              (axios_post_form w (fs s) (ireq op)) = Some e
         /\ Optimizer.generateImage cfg w prompt s =
            (Rejected e, logged s (chat_events op ++ [EvPostForm (ireq op); errI e]))
         /\ Optimizer.generate3DModel cfg w prompt s =
            (Rejected e, logged s (chat_events op ++ [EvPostForm (ireq op); errI e; err3 e])))
  \/ (exists op img e,
         optimized op
         /\ axios_post_form w (fs s) (ireq op) = Resolved (mkResponse 200 img)
         /\ stage_failure w (js "3D model generation failed: ") (<[png := img]> (fs s)) glb
              (axios_post_form w (<[png := img]> (fs s)) mreq) = Some e
         /\ Optimizer.generateImage cfg w prompt s =
            (Resolved png, mkState (<[png := img]> (fs s)) (trace s ++ image_events op img))
         /\ Optimizer.generate3DModel cfg w prompt s =
            (Rejected e,
             mkState (<[png := img]> (fs s))
               (trace s ++ image_events op img
                  ++ [EvConsole (LogUsingImage png); EvPostForm mreq; err3 e])))
  \/ (exists op img mdl,
         optimized op
         /\ axios_post_form w (fs s) (ireq op) = Resolved (mkResponse 200 img)
         /\ axios_post_form w (<[png := img]> (fs s)) mreq = Resolved (mkResponse 200 mdl)
         /\ Optimizer.generateImage cfg w prompt s =
            (Resolved png, mkState (<[png := img]> (fs s)) (trace s ++ image_events op img))
         /\ Optimizer.generate3DModel cfg w prompt s =
            (Resolved glb,
             mkState (<[glb := mdl]> (<[png := img]> (fs s)))
               (trace s ++ image_events op img
                  ++ [EvConsole (LogUsingImage png); EvPostForm mreq;
                      EvWriteFile glb mdl; EvConsole (LogModelGenerated glb);
                      EvConsole LogElapsed]))).
Proof.
  intros png glb creq ireq mreq errO errI err3 chat_events image_events optimized.
  unfold optimized, Optimizer.generate3DModel.
  pose proof (generate3DModel_with_cases cfg w (Optimizer.generateImage cfg w) prompt s) as H3.
  simpl in H3. unfold Optimizer.generateImage in *.
  unfold mbind, M_bind in *.
  destruct (optimizePrompt_cases cfg w prompt (promptModifierImage cfg) s)
    as [(resp & content & op & _ & _ & _ & _ & Hopt) | (e & said & Hopt & Hsaid & _)];
    fold creq in Hopt; rewrite Hopt in *.
  - destruct (generateImage_post_cases cfg w prompt (Optimizer.imageForm op)
                (logged s [EvPostJson creq; EvConsole (LogOptimizedPrompt op)]))
      as [(img & Hpost & Hrun) | (e & Hfail & Hrun)];
      simpl in Hpost || simpl in Hfail; rewrite Hrun in *; clear Hrun.
    + simpl in H3. fold png glb mreq in H3.
      destruct H3 as [(mdl & Hpost3 & H3) | (e & Hfail3 & H3)].
      * right; right; right. exists op, img, mdl. rewrite H3. simpl.
        rewrite <- !app_assoc. repeat split; assumption.
      * right; right; left. exists op, img, e. rewrite H3. unfold logged. simpl.
        rewrite <- !app_assoc. repeat split; assumption.
    + right; left. exists op, e. rewrite H3, !logged_logged.
      repeat split; assumption.
  - left. exists e, said. rewrite H3, logged_logged. simpl.
    rewrite <- app_assoc. repeat split; assumption.
Qed.

(** ** The optimizer *)

(** The shape of a chat-completion body: an object whose [choices] is
    an array, the first element of which holds [message.content]. *)
Lemma choice_content_first_choice props cprops rest mprops :
  Js.own_prop (js "choices") props = JArr (JObj cprops :: rest) ->
  Js.own_prop (js "message") cprops = JObj mprops ->
  choice_content (JObj props) = Resolved (Js.own_prop (js "content") mprops).
Proof.
  intros Hc Hm. unfold choice_content. simpl. rewrite Hc. simpl. rewrite Hm. reflexivity.
Qed.

(** C5: on a chat-completion response of status 200, [optimizePrompt]
    resolves with the [content] of the [message] of the first element
    of the [choices] array, trimmed (and touches no file). *)
Theorem optimizePrompt_returns_trimmed_content
    cfg w inputPrompt modifier s resp props cprops rest mprops content :
  axios_post_json w (chatRequest cfg inputPrompt modifier) = Resolved resp ->
  status resp = 200%Z ->
  data resp = JObj props ->
  Js.own_prop (js "choices") props = JArr (JObj cprops :: rest) ->
  Js.own_prop (js "message") cprops = JObj mprops ->
  Js.own_prop (js "content") mprops = JStr content ->
  exists s',
    optimizePrompt cfg w inputPrompt modifier s = (Resolved (JsString.trim content), s')
    /\ fs s' = fs s.
Proof.
  intros Hpost Hst Hdata Hc Hm Hcontent.
  destruct (optimizePrompt_cases cfg w inputPrompt modifier s)
    as [(resp' & c & p & Hpost' & _ & Hcc & Htrim & Hrun) | (e & said & Hrun & _ & _)].
  - rewrite Hpost in Hpost'. injection Hpost' as <-.
    rewrite Hdata, (choice_content_first_choice _ _ _ _ Hc Hm), Hcontent in Hcc.
    injection Hcc as <-. simpl in Htrim. injection Htrim as <-.
    eexists. split; [exact Hrun | reflexivity].
  - exfalso. revert Hrun. unfold optimizePrompt.
    rewrite try_catch_rethrow, optimizePrompt_block_run, Hpost, Hst, Hdata.
    rewrite (choice_content_first_choice _ _ _ _ Hc Hm), Hcontent. simpl. discriminate.
Qed.

Lemma optimizePrompt_returns_trimmed_content_witness :
  exists s',
    optimizePrompt Demo.cfg (Demo.world_of 200 200) (js "a red cube")
      (promptModifierImage Demo.cfg) Demo.s0
    = (Resolved (js "a glossy red cube, studio light"), s')
    /\ fs s' = fs Demo.s0.
Proof.
  exact (optimizePrompt_returns_trimmed_content
           Demo.cfg (Demo.world_of 200 200) (js "a red cube")
           (promptModifierImage Demo.cfg) Demo.s0
           _ _ _ _ _ (js "  a glossy red cube, studio light  ")
           eq_refl eq_refl eq_refl eq_refl eq_refl eq_refl).
Defined.

(** ** Failures of the image and 3D requests *)

(** C2: whenever the image request does not come back with status 200
    (another status, or no response), [generateImage] rejects with the
    error of that request, and writes no file: the disk is as before and
    the trace holds no write.  Second variant first; in the first variant
    the image request is only made once the optimizer resolved. *)
Theorem generateImage_rejects_without_writing cfg w prompt s :
  (resolves_200 (axios_post_form w (fs s)
                   (imageRequest cfg (SystemPrompt.imageForm cfg prompt))) = false ->
   exists e s',
     SystemPrompt.generateImage cfg w prompt s = (Rejected e, s')
     /\ failure_of w (js "Image generation failed: ")
          (axios_post_form w (fs s)
             (imageRequest cfg (SystemPrompt.imageForm cfg prompt))) = Some e
     /\ fs s' = fs s
     /\ writes (events_since s s') = [])
  /\ (forall op s1,
         optimizePrompt cfg w prompt (promptModifierImage cfg) s = (Resolved op, s1) ->
         resolves_200 (axios_post_form w (fs s1)
                         (imageRequest cfg (Optimizer.imageForm op))) = false ->
         exists e s',
           Optimizer.generateImage cfg w prompt s = (Rejected e, s')
           /\ failure_of w (js "Image generation failed: ")
                (axios_post_form w (fs s1)
                   (imageRequest cfg (Optimizer.imageForm op))) = Some e
           /\ fs s' = fs s
           /\ writes (events_since s s') = []).
Proof.
  split.
  - intros Hno.
    destruct (SystemPrompt_cases cfg w prompt s)
      as [(e & Hfail & Hrun & _) | [(img & e & Hpost & _) | (img & mdl & Hpost & _)]].
    + exists e. eexists. rewrite Hrun, events_since_logged.
      repeat split.
      rewrite (stage_failure_unless_200 _ _ _ _ _ Hno) in Hfail. exact Hfail.
    + rewrite Hpost in Hno. discriminate.
    + rewrite Hpost in Hno. discriminate.
  - intros op s1 Hopt Hno.
    destruct (Optimizer_cases cfg w prompt s)
      as [(e & said & _ & Hopt' & _)
         | [(op' & e & Hopt' & Hfail & Hrun & _)
           | [(op' & img & e & Hopt' & Hpost & _)
             | (op' & img & mdl & Hopt' & Hpost & _)]]];
      rewrite Hopt in Hopt'; try discriminate;
      injection Hopt' as <- ->; simpl in Hno.
    + exists e. eexists. rewrite Hrun, events_since_logged.
      repeat split.
      rewrite (stage_failure_unless_200 _ _ _ _ _ Hno) in Hfail. exact Hfail.
    + rewrite Hpost in Hno. discriminate.
    + rewrite Hpost in Hno. discriminate.
Qed.

(** The image endpoint answers 404, through an axios that resolves and
    through the real axios, which rejects. *)
Lemma generateImage_rejects_without_writing_witness :
  (exists e s',
      SystemPrompt.generateImage Demo.cfg (Demo.world_of 404 200) (js "a red cube") Demo.s0
      = (Rejected e, s')
      /\ fs s' = fs Demo.s0 /\ writes (events_since Demo.s0 s') = [])
  /\ (exists e s',
         Optimizer.generateImage Demo.cfg (Demo.axios_world_of 404 200) (js "a red cube") Demo.s0
         = (Rejected e, s')
         /\ fs s' = fs Demo.s0 /\ writes (events_since Demo.s0 s') = []).
Proof.
  split.
  - destruct (generateImage_rejects_without_writing
                Demo.cfg (Demo.world_of 404 200) (js "a red cube") Demo.s0) as [H _].
    destruct (H eq_refl) as (e & s' & Hrun & _ & Hfs & Hw).
    exists e, s'. repeat split; assumption.
  - destruct (generateImage_rejects_without_writing
                Demo.cfg (Demo.axios_world_of 404 200) (js "a red cube") Demo.s0) as [_ H].
    destruct (H _ _ eq_refl eq_refl) as (e & s' & Hrun & _ & Hfs & Hw).
    exists e, s'. repeat split; assumption.
Defined.

Lemma is_prefix_app p s : JsString.is_prefix p (p ++ s) = true.
Proof.
  unfold JsString.is_prefix. apply bool_decide_eq_true. apply take_app_length.
Qed.

Lemma includes_here needle s :
  JsString.is_prefix needle s = true -> JsString.includes needle s = true.
Proof.
  intros H. destruct s; cbn [JsString.includes]; rewrite H; reflexivity.
Qed.

Lemma includes_app needle before after :
  JsString.includes needle (before ++ needle ++ after) = true.
Proof.
  induction before as [| c before IH].
  - cbn [app]. apply includes_here, is_prefix_app.
  - cbn [app JsString.includes]. rewrite IH. apply orb_true_r.
Qed.

(** An [Error] built for a status names that status. *)
Lemma status_error_references w what st d :
  references_status (status_error w what (mkResponse st d)) st.
Proof. unfold status_error, references_status. simpl. apply includes_app. Qed.

Lemma failure_references w what o st e :
  answered_status o st -> failure_of w what o = Some e -> references_status e st.
Proof.
  destruct o as [[st' d] | e']; simpl.
  - intros ->. destruct (st =? 200)%Z; [discriminate |].
    intros [= <-]. apply status_error_references.
  - intros Ha [= <-].
    destruct e' as [c [[st' b] |] | | |]; simpl in *; first [assumption | contradiction].
Qed.

Lemma stage_failure_references w what disk path o st e :
  st <> 200%Z -> answered_status o st ->
  stage_failure w what disk path o = Some e -> references_status e st.
Proof.
  intros Hst Hans Hfail. apply (failure_references w what o st e Hans).
  rewrite <- Hfail. symmetry. apply stage_failure_unless_200.
  destruct o as [[st' d] | e']; [| reflexivity].
  simpl in *. subst st'. apply Z.eqb_neq. exact Hst.
Qed.

(** C3: once the image stage has written the [.png], a 3D endpoint that
    answers 500 makes [generate3DModel] reject with an error that names
    status 500; the disk is left as the image stage left it, so the
    [.png] is still there with the same content.  Both variants. *)
Theorem model_status_500_rejects_and_keeps_image cfg w prompt s p s1 :
  (SystemPrompt.generateImage cfg w prompt s = (Resolved p, s1) ->
   answered_status (axios_post_form w (fs s1) (modelRequest cfg p)) 500 ->
   exists e s' img,
     SystemPrompt.generate3DModel cfg w prompt s = (Rejected e, s')
     /\ references_status e 500
     /\ p = pngPath cfg prompt
     /\ fs s1 !! p = Some img
     /\ fs s' = fs s1)
  /\ (Optimizer.generateImage cfg w prompt s = (Resolved p, s1) ->
      answered_status (axios_post_form w (fs s1) (modelRequest cfg p)) 500 ->
      exists e s' img,
        Optimizer.generate3DModel cfg w prompt s = (Rejected e, s')
        /\ references_status e 500
        /\ p = pngPath cfg prompt
        /\ fs s1 !! p = Some img
        /\ fs s' = fs s1).
Proof.
  split; intros Himg Hans.
  - destruct (SystemPrompt_cases cfg w prompt s)
      as [(e & _ & Himg' & _)
         | [(img & e & _ & Hfail & Himg' & Hrun)
           | (img & mdl & _ & Hpost & Himg' & _)]];
      rewrite Himg in Himg'; try discriminate; injection Himg' as -> ->; simpl in Hans.
    + exists e. eexists. exists img. rewrite Hrun. simpl.
      repeat split.
      * eapply stage_failure_references; [discriminate | eassumption | eassumption].
      * apply lookup_insert_eq.
    + rewrite Hpost in Hans. simpl in Hans. discriminate.
  - destruct (Optimizer_cases cfg w prompt s)
      as [(e & said & _ & _ & Himg' & _)
         | [(op & e & _ & _ & Himg' & _)
           | [(op & img & e & _ & _ & Hfail & Himg' & Hrun)
             | (op & img & mdl & _ & _ & Hpost & Himg' & _)]]];
      rewrite Himg in Himg'; try discriminate; injection Himg' as -> ->; simpl in Hans.
    + exists e. eexists. exists img. rewrite Hrun. simpl.
      repeat split.
      * eapply stage_failure_references; [discriminate | eassumption | eassumption].
      * apply lookup_insert_eq.
    + rewrite Hpost in Hans. simpl in Hans. discriminate.
Qed.

(** The 3D endpoint answers 500, through an axios that resolves and
    through the real axios, which rejects. *)
Lemma model_status_500_rejects_and_keeps_image_witness :
  (exists e s',
      SystemPrompt.generate3DModel Demo.cfg (Demo.world_of 200 500) (js "a red cube") Demo.s0
      = (Rejected e, s')
      /\ references_status e 500
      /\ fs s' !! js "/app/dist/gen_a_red_cube.png" = Some Demo.imageBytes)
  /\ (exists e s',
         Optimizer.generate3DModel Demo.cfg (Demo.axios_world_of 200 500) (js "a red cube") Demo.s0
         = (Rejected e, s')
         /\ references_status e 500
         /\ fs s' !! js "/app/dist/gen_a_red_cube.png" = Some Demo.imageBytes).
Proof.
  split.
  - destruct (model_status_500_rejects_and_keeps_image
                Demo.cfg (Demo.world_of 200 500) (js "a red cube") Demo.s0
                (js "/app/dist/gen_a_red_cube.png")
                (snd (SystemPrompt.generateImage Demo.cfg (Demo.world_of 200 500)
                        (js "a red cube") Demo.s0))) as [H _].
    destruct (H eq_refl eq_refl) as (e & s' & img & Hrun & Href & _ & _ & Hfs).
    exists e, s'. split; [exact Hrun | split; [exact Href |]].
    rewrite Hfs. reflexivity.
  - destruct (model_status_500_rejects_and_keeps_image
                Demo.cfg (Demo.axios_world_of 200 500) (js "a red cube") Demo.s0
                (js "/app/dist/gen_a_red_cube.png")
                (snd (Optimizer.generateImage Demo.cfg (Demo.axios_world_of 200 500)
                        (js "a red cube") Demo.s0))) as [_ H].
    destruct (H eq_refl eq_refl) as (e & s' & img & Hrun & Href & _ & _ & Hfs).
    exists e, s'. split; [exact Hrun | split; [exact Href |]].
    rewrite Hfs. reflexivity.
Defined.

Example model_status_500_message :
  fst (SystemPrompt.generate3DModel Demo.cfg (Demo.world_of 200 500) (js "a red cube") Demo.s0)
  = Rejected (NewError (JStr (js "3D model generation failed: 500 - oops"))).
Proof. vm_compute. reflexivity. Qed.

Example requests_of_a_complete_run :
  omap posted_url
    (events_since Demo.s0
       (snd (Optimizer.generate3DModel Demo.cfg (Demo.world_of 200 200)
               (js "a red cube") Demo.s0)))
  = [chatUrl; imageUrl; modelUrl].
Proof. vm_compute. reflexivity. Qed.

(** ** Output files *)

Lemma pngPath_stem cfg prompt : pngPath cfg prompt = stemPath cfg prompt ++ js ".png".
Proof.
  unfold pngPath, stemPath, path_resolve, pngName. rewrite <- !app_assoc. reflexivity.
Qed.

Lemma glbPath_stem cfg prompt : glbPath cfg prompt = stemPath cfg prompt ++ js ".glb".
Proof.
  unfold glbPath, stemPath, path_resolve, glbName. rewrite <- !app_assoc. reflexivity.
Qed.

Lemma pngPath_neq_glbPath cfg prompt : pngPath cfg prompt <> glbPath cfg prompt.
Proof.
  rewrite pngPath_stem, glbPath_stem. intros H. apply app_inv_head in H. discriminate H.
Qed.

(** The disk after a complete run. *)
Lemma both_files_present (cfg : config) (prompt : list N)
    (disk : gmap (list N) (list Byte.byte)) (img mdl : list Byte.byte) :
  let disk' := <[glbPath cfg prompt := mdl]> (<[pngPath cfg prompt := img]> disk) in
  disk' !! pngPath cfg prompt = Some img /\ disk' !! glbPath cfg prompt = Some mdl.
Proof.
  simpl. split.
  - rewrite lookup_insert_ne by (apply not_eq_sym, pngPath_neq_glbPath).
    apply lookup_insert_eq.
  - apply lookup_insert_eq.
Qed.

(** C6, as amended: when the requests of the run are answered
    successfully (the chat with status 200 and a string at
    [choices[0].message.content], the image and the 3D endpoint with
    status 200) and the two writes go through, [generate3DModel]
    resolves with the resolved path of the [.glb], and both the [.png]
    and the [.glb] are on disk, holding the bytes the endpoints sent.
    The second variant makes no chat request. *)
Theorem generate3DModel_success_writes_both_files cfg w prompt s img mdl :
  let png := path_resolve (dirname cfg) (pngName prompt) in
  let glb := path_resolve (dirname cfg) (glbName prompt) in
  fs_write_error w (fs s) png img = None ->
  axios_post_form w (<[png := img]> (fs s)) (modelRequest cfg png)
  = Resolved (mkResponse 200 mdl) ->
  fs_write_error w (<[png := img]> (fs s)) glb mdl = None ->
  (axios_post_form w (fs s) (imageRequest cfg (SystemPrompt.imageForm cfg prompt))
   = Resolved (mkResponse 200 img) ->
   exists s',
     SystemPrompt.generate3DModel cfg w prompt s = (Resolved glb, s')
     /\ fs s' !! png = Some img
     /\ fs s' !! glb = Some mdl
     /\ writes (events_since s s') = [(png, img); (glb, mdl)])
  /\ (forall resp content,
         axios_post_json w (chatRequest cfg prompt (promptModifierImage cfg)) = Resolved resp ->
         status resp = 200%Z ->
         choice_content (data resp) = Resolved (JStr content) ->
         axios_post_form w (fs s)
           (imageRequest cfg (Optimizer.imageForm (JsString.trim content)))
         = Resolved (mkResponse 200 img) ->
         exists s',
           Optimizer.generate3DModel cfg w prompt s = (Resolved glb, s')
           /\ fs s' !! png = Some img
           /\ fs s' !! glb = Some mdl
           /\ writes (events_since s s') = [(png, img); (glb, mdl)]).
Proof.
  intros png glb Hw1 Hpost3 Hw3. subst png glb.
  fold (pngPath cfg prompt) (glbPath cfg prompt) in *.
  destruct (both_files_present cfg prompt (fs s) img mdl) as [Hpng Hglb].
  split.
  - intros Hpost.
    destruct (SystemPrompt_cases cfg w prompt s)
      as [(e & Hfail & _)
         | [(img' & e & Hi & Hfail & _) | (img' & mdl' & Hi & Hm & _ & Hrun)]].
    + rewrite Hpost in Hfail. simpl in Hfail. congruence.
    + rewrite Hpost in Hi. injection Hi as <-.
      rewrite Hpost3 in Hfail. simpl in Hfail. congruence.
    + rewrite Hpost in Hi. injection Hi as <-.
      rewrite Hpost3 in Hm. injection Hm as <-.
      eexists. rewrite Hrun, events_since_state.
      split; [reflexivity |]. repeat split; assumption.
  - intros resp content Hchat Hst Hc Hpost.
    assert (Hopt : fst (optimizePrompt cfg w prompt (promptModifierImage cfg) s)
                   = Resolved (JsString.trim content)).
    { unfold optimizePrompt.
      rewrite try_catch_rethrow, optimizePrompt_block_run, Hchat, Hst, Hc. reflexivity. }
    destruct (Optimizer_cases cfg w prompt s)
      as [(e & said & _ & Hopt' & _)
         | [(op & e & Hopt' & Hfail & _)
           | [(op & img' & e & Hopt' & Hi & Hfail & _)
             | (op & img' & mdl' & Hopt' & Hi & Hm & _ & Hrun)]]];
      rewrite Hopt' in Hopt; try discriminate Hopt; injection Hopt as ->.
    + rewrite Hpost in Hfail. simpl in Hfail. congruence.
    + rewrite Hpost in Hi. injection Hi as <-.
      rewrite Hpost3 in Hfail. simpl in Hfail. congruence.
    + rewrite Hpost in Hi. injection Hi as <-.
      rewrite Hpost3 in Hm. injection Hm as <-.
      eexists. rewrite Hrun, events_since_state.
      split; [reflexivity |]. repeat split; assumption.
Qed.

(** The end-to-end run of the prompt ["a red cube"]. *)
Lemma generate3DModel_success_writes_both_files_witness :
  exists s',
    Optimizer.generate3DModel Demo.cfg (Demo.world_of 200 200) (js "a red cube") Demo.s0
    = (Resolved (js "/app/dist/gen_a_red_cube.glb"), s')
    /\ fs s' !! js "/app/dist/gen_a_red_cube.png" = Some Demo.imageBytes
    /\ fs s' !! js "/app/dist/gen_a_red_cube.glb" = Some Demo.modelBytes.
Proof.
  destruct (generate3DModel_success_writes_both_files
              Demo.cfg (Demo.world_of 200 200) (js "a red cube") Demo.s0
              Demo.imageBytes Demo.modelBytes eq_refl eq_refl eq_refl) as [_ H].
  destruct (H _ (js "  a glossy red cube, studio light  ") eq_refl eq_refl eq_refl eq_refl)
    as (s' & Hrun & Hpng & Hglb & _).
  exists s'. split; [exact Hrun | split; [exact Hpng | exact Hglb]].
Defined.

(** C6, as stated, fails: with every endpoint answering 200 to every
    request, a write that throws (here a directory where the [.png]
    goes) makes [generate3DModel] reject with the error of [fs], in
    either variant, and no file is written. *)
Lemma generate3DModel_rejects_when_write_throws :
  (forall r, exists resp content,
      axios_post_json Demo.blocked_world r = Resolved resp /\ status resp = 200%Z
      /\ choice_content (data resp) = Resolved (JStr content))
  /\ (forall disk r, resolves_200 (axios_post_form Demo.blocked_world disk r) = true)
  /\ fst (Optimizer.generate3DModel Demo.cfg Demo.blocked_world (js "a red cube") Demo.s0)
     = Rejected (SystemError (js "EISDIR") (js "/app/dist/gen_a_red_cube.png"))
  /\ fst (SystemPrompt.generate3DModel Demo.cfg Demo.blocked_world (js "a red cube") Demo.s0)
     = Rejected (SystemError (js "EISDIR") (js "/app/dist/gen_a_red_cube.png"))
  /\ fs (snd (Optimizer.generate3DModel Demo.cfg Demo.blocked_world (js "a red cube")
                Demo.s0)) = ∅
  /\ fs (snd (SystemPrompt.generate3DModel Demo.cfg Demo.blocked_world (js "a red cube")
                Demo.s0)) = ∅.
Proof.
  split; [| split].
  - intros r. eexists _, _. repeat split.
  - intros disk r. simpl. destruct (bool_decide (url r = modelUrl)); reflexivity.
  - repeat split; vm_compute; reflexivity.
Qed.

(** What a resolved run did, in either variant. *)
Lemma SystemPrompt_generateImage_resolved cfg w prompt s p s' :
  SystemPrompt.generateImage cfg w prompt s = (Resolved p, s') ->
  p = pngPath cfg prompt
  /\ exists img, fs s' = <[pngPath cfg prompt := img]> (fs s)
                 /\ writes (events_since s s') = [(pngPath cfg prompt, img)].
Proof.
  intros Hrun.
  destruct (SystemPrompt_cases cfg w prompt s)
    as [(e & _ & Hrun' & _)
       | [(img & e & _ & _ & Hrun' & _) | (img & mdl & _ & _ & Hrun' & _)]];
    rewrite Hrun in Hrun'; try discriminate; injection Hrun' as -> ->;
    (split; [reflexivity |]); exists img; rewrite events_since_state; split; reflexivity.
Qed.

Lemma Optimizer_generateImage_resolved cfg w prompt s p s' :
  Optimizer.generateImage cfg w prompt s = (Resolved p, s') ->
  p = pngPath cfg prompt
  /\ exists img, fs s' = <[pngPath cfg prompt := img]> (fs s)
                 /\ writes (events_since s s') = [(pngPath cfg prompt, img)].
Proof.
  intros Hrun.
  destruct (Optimizer_cases cfg w prompt s)
    as [(e & said & _ & _ & Hrun' & _)
       | [(op & e & _ & _ & Hrun' & _)
         | [(op & img & e & _ & _ & _ & Hrun' & _)
           | (op & img & mdl & _ & _ & _ & Hrun' & _)]]];
    rewrite Hrun in Hrun'; try discriminate; injection Hrun' as -> ->;
    (split; [reflexivity |]); exists img; rewrite events_since_state; split; reflexivity.
Qed.

Lemma SystemPrompt_generate3DModel_resolved cfg w prompt s p s' :
  SystemPrompt.generate3DModel cfg w prompt s = (Resolved p, s') ->
  p = glbPath cfg prompt
  /\ exists img mdl,
      fs s' = <[glbPath cfg prompt := mdl]> (<[pngPath cfg prompt := img]> (fs s))
      /\ writes (events_since s s') = [(pngPath cfg prompt, img); (glbPath cfg prompt, mdl)].
Proof.
  intros Hrun.
  destruct (SystemPrompt_cases cfg w prompt s)
    as [(e & _ & _ & Hrun')
       | [(img & e & _ & _ & _ & Hrun') | (img & mdl & _ & _ & _ & Hrun')]];
    rewrite Hrun in Hrun'; try discriminate; injection Hrun' as -> ->.
  split; [reflexivity |]. exists img, mdl. rewrite events_since_state. split; reflexivity.
Qed.

Lemma Optimizer_generate3DModel_resolved cfg w prompt s p s' :
  Optimizer.generate3DModel cfg w prompt s = (Resolved p, s') ->
  p = glbPath cfg prompt
  /\ exists op img mdl,
      optimizePrompt cfg w prompt (promptModifierImage cfg) s
      = (Resolved op, logged s [EvPostJson (chatRequest cfg prompt (promptModifierImage cfg));
                                EvConsole (LogOptimizedPrompt op)])
      /\ In (EvPostForm (imageRequest cfg (Optimizer.imageForm op))) (events_since s s')
      /\ fs s' = <[glbPath cfg prompt := mdl]> (<[pngPath cfg prompt := img]> (fs s))
      /\ writes (events_since s s') = [(pngPath cfg prompt, img); (glbPath cfg prompt, mdl)].
Proof.
  intros Hrun.
  destruct (Optimizer_cases cfg w prompt s)
    as [(e & said & _ & _ & _ & Hrun')
       | [(op & e & _ & _ & _ & Hrun')
         | [(op & img & e & _ & _ & _ & _ & Hrun')
           | (op & img & mdl & Hopt & _ & _ & _ & Hrun')]]];
    rewrite Hrun in Hrun'; try discriminate; injection Hrun' as -> ->.
  split; [reflexivity |]. exists op, img, mdl. rewrite events_since_state.
  split; [exact Hopt |]. split; [| split; reflexivity].
  simpl. auto.
Qed.

(** Two inserts at the two output paths hide what an earlier run left
    there. *)
Lemma rewrite_both_files (cfg : config) (prompt : list N)
    (disk : gmap (list N) (list Byte.byte)) (img1 mdl1 img2 mdl2 : list Byte.byte) :
  <[glbPath cfg prompt := mdl2]>
    (<[pngPath cfg prompt := img2]>
       (<[glbPath cfg prompt := mdl1]> (<[pngPath cfg prompt := img1]> disk)))
  = <[glbPath cfg prompt := mdl2]> (<[pngPath cfg prompt := img2]> disk).
Proof.
  rewrite (insert_insert_ne _ (pngPath cfg prompt) (glbPath cfg prompt))
    by apply pngPath_neq_glbPath.
  rewrite !insert_insert_eq. reflexivity.
Qed.

Lemma generateImage_of_resolved v cfg w prompt s p s' :
  generateImage_of v cfg w prompt s = (Resolved p, s') ->
  p = pngPath cfg prompt
  /\ exists img, fs s' = <[pngPath cfg prompt := img]> (fs s)
                 /\ writes (events_since s s') = [(pngPath cfg prompt, img)].
Proof.
  destruct v; simpl; intros Hrun.
  - exact (Optimizer_generateImage_resolved _ _ _ _ _ _ Hrun).
  - exact (SystemPrompt_generateImage_resolved _ _ _ _ _ _ Hrun).
Qed.

Lemma generate3DModel_of_resolved v cfg w prompt s p s' :
  generate3DModel_of v cfg w prompt s = (Resolved p, s') ->
  p = glbPath cfg prompt
  /\ exists img mdl,
      fs s' = <[glbPath cfg prompt := mdl]> (<[pngPath cfg prompt := img]> (fs s))
      /\ writes (events_since s s') = [(pngPath cfg prompt, img); (glbPath cfg prompt, mdl)].
Proof.
  destruct v; simpl; intros Hrun.
  - destruct (Optimizer_generate3DModel_resolved _ _ _ _ _ _ Hrun)
      as (-> & op & img & mdl & _ & _ & Hfs & Hw). eauto.
  - exact (SystemPrompt_generate3DModel_resolved _ _ _ _ _ _ Hrun).
Qed.

(** C1: the output file name is a function of the prompt alone.
    [sanitizeFileName] trims, maps every code unit outside [a-zA-Z0-9]
    to ['_'] and keeps at most 20 code units.  Two resolved calls of
    [generateImage], or of [generate3DModel], with the same prompt (in
    whatever environment, from whatever state, in either variant) give
    the same path; and when the second call follows the first, the two
    files hold what the second call wrote: the output of the first is
    overwritten. *)
Theorem output_path_is_determined_by_prompt (v : variant) (cfg : config) (prompt : list N) :
  (sanitizeFileName prompt
   = take 20 (map (fun c => if JsString.is_alnum c then c else 0x5F)
                (JsString.trim prompt))
   /\ (length (sanitizeFileName prompt) <= 20)%nat)
  /\ (forall w1 w2 s1 s2 p1 p2 s1' s2',
         generateImage_of v cfg w1 prompt s1 = (Resolved p1, s1') ->
         generateImage_of v cfg w2 prompt s2 = (Resolved p2, s2') ->
         p1 = p2
         /\ p1 = path_resolve (dirname cfg) (js "gen_" ++ sanitizeFileName prompt ++ js ".png"))
  /\ (forall w1 w2 s1 s2 p1 p2 s1' s2',
         generate3DModel_of v cfg w1 prompt s1 = (Resolved p1, s1') ->
         generate3DModel_of v cfg w2 prompt s2 = (Resolved p2, s2') ->
         p1 = p2
         /\ p1 = path_resolve (dirname cfg) (js "gen_" ++ sanitizeFileName prompt ++ js ".glb"))
  /\ (forall w1 w2 s0 p1 s1 p2 s2,
         generate3DModel_of v cfg w1 prompt s0 = (Resolved p1, s1) ->
         generate3DModel_of v cfg w2 prompt s1 = (Resolved p2, s2) ->
         exists img mdl,
           writes (events_since s1 s2) = [(pngPath cfg prompt, img); (p1, mdl)]
           /\ fs s2 = <[p1 := mdl]> (<[pngPath cfg prompt := img]> (fs s0))).
Proof.
  split; [| split; [| split]].
  - split; [reflexivity | apply sanitizeFileName_length].
  - intros w1 w2 s1 s2 p1 p2 s1' s2' H1 H2.
    apply generateImage_of_resolved in H1 as [-> _].
    apply generateImage_of_resolved in H2 as [-> _].
    split; reflexivity.
  - intros w1 w2 s1 s2 p1 p2 s1' s2' H1 H2.
    apply generate3DModel_of_resolved in H1 as [-> _].
    apply generate3DModel_of_resolved in H2 as [-> _].
    split; reflexivity.
  - intros w1 w2 s0 p1 s1 p2 s2 H1 H2.
    apply generate3DModel_of_resolved in H1 as (-> & img1 & mdl1 & Hfs1 & _).
    apply generate3DModel_of_resolved in H2 as (-> & img2 & mdl2 & Hfs2 & Hw2).
    exists img2, mdl2. split; [exact Hw2 |].
    rewrite Hfs2, Hfs1. apply rewrite_both_files.
Qed.

(** Two runs in a row for ["a red cube"], the second one receiving
    other bytes from the endpoints. *)
Lemma output_path_is_determined_by_prompt_witness :
  let w1 := Demo.world_of 200 200 in
  let w2 := mkWorld (axios_post_json w1)
              (fun _ _ => Resolved (mkResponse 200 Demo.failBytes)) Demo.latin1 Demo.writable in
  let run1 := Optimizer.generate3DModel Demo.cfg w1 (js "a red cube") Demo.s0 in
  let run2 := Optimizer.generate3DModel Demo.cfg w2 (js "a red cube") (snd run1) in
  fst run1 = Resolved (js "/app/dist/gen_a_red_cube.glb")
  /\ fst run2 = fst run1
  /\ fs (snd run2) !! js "/app/dist/gen_a_red_cube.png" = Some Demo.failBytes
  /\ fs (snd run2) !! js "/app/dist/gen_a_red_cube.glb" = Some Demo.failBytes.
Proof.
  intros w1 w2 run1 run2.
  destruct (output_path_is_determined_by_prompt WithOptimizer Demo.cfg (js "a red cube"))
    as (_ & _ & Hsame & Hover).
  assert (H1 : generate3DModel_of WithOptimizer Demo.cfg w1 (js "a red cube") Demo.s0
               = (Resolved (js "/app/dist/gen_a_red_cube.glb"), snd run1))
    by (vm_compute; reflexivity).
  assert (H2 : generate3DModel_of WithOptimizer Demo.cfg w2 (js "a red cube") (snd run1)
               = (Resolved (js "/app/dist/gen_a_red_cube.glb"), snd run2))
    by (vm_compute; reflexivity).
  destruct (Hsame _ _ _ _ _ _ _ _ H1 H2) as [_ _].
  destruct (Hover _ _ _ _ _ _ _ H1 H2) as (img & mdl & Hw & Hfs).
  split; [vm_compute; reflexivity |].
  split; [vm_compute; reflexivity |].
  assert (Himg : img = Demo.failBytes /\ mdl = Demo.failBytes).
  { vm_compute in Hw. injection Hw as <- <-. split; reflexivity. }
  destruct Himg as [-> ->]. rewrite Hfs.
  split; vm_compute; reflexivity.
Defined.

(** ** What is requested, and in which order *)

Lemma urls_distinct : NoDup [chatUrl; imageUrl; modelUrl].
Proof. apply (bool_decide_unpack _). vm_compute. exact I. Qed.

Lemma imageUrl_neq_modelUrl : imageUrl <> modelUrl.
Proof. intros H. vm_compute in H. discriminate H. Qed.

Lemma posted_console_only evs : Forall is_console evs -> omap posted_url evs = [].
Proof.
  induction 1 as [| e evs He _ IH]; [reflexivity |].
  destruct e; simpl in He; try contradiction. exact IH.
Qed.

Lemma no_post_console_only evs r : Forall is_console evs -> ~ In (EvPostForm r) evs.
Proof.
  intros Hall Hin. rewrite Forall_forall in Hall.
  apply list_elem_of_In in Hin. exact (Hall _ Hin).
Qed.

Lemma lookup_In {A : Type} (l : list A) (i : nat) (x : A) : l !! i = Some x -> In x l.
Proof. intros H. apply list_elem_of_In. eapply list_elem_of_lookup_2. exact H. Qed.

(** The events of a whole run, for each way it can go. *)
Lemma SystemPrompt_events cfg w prompt s :
  let png := pngPath cfg prompt in
  let glb := glbPath cfg prompt in
  let ireq := EvPostForm (imageRequest cfg (SystemPrompt.imageForm cfg prompt)) in
  let mreq := EvPostForm (modelRequest cfg png) in
  let evs := events_since s (snd (SystemPrompt.generate3DModel cfg w prompt s)) in
  (exists e1 e2, is_console e1 /\ is_console e2 /\ evs = [ireq; e1; e2]
                 /\ exists e, fst (SystemPrompt.generateImage cfg w prompt s) = Rejected e)
  \/ (exists img tail,
         omap posted_url tail = []
         /\ fst (SystemPrompt.generateImage cfg w prompt s) = Resolved png
         /\ evs = [ireq; EvWriteFile png img; EvConsole (LogImageGenerated png);
                   EvConsole (LogUsingImage png); mreq] ++ tail).
Proof.
  intros png glb ireq mreq evs. subst evs.
  destruct (SystemPrompt_cases cfg w prompt s)
    as [(e & _ & Himg & Hrun)
       | [(img & e & _ & _ & Himg & Hrun) | (img & mdl & _ & _ & Himg & Hrun)]];
    rewrite Hrun, Himg; simpl snd; rewrite ?events_since_logged, ?events_since_state.
  - left. do 2 eexists.
    refine (conj _ (conj _ (conj eq_refl _))); [exact I | exact I | eauto].
  - right. exists img. eexists.
    refine (conj _ (conj eq_refl eq_refl)). reflexivity.
  - right. exists img. eexists.
    refine (conj _ (conj eq_refl eq_refl)). reflexivity.
Qed.

Lemma Optimizer_events cfg w prompt s :
  let png := pngPath cfg prompt in
  let glb := glbPath cfg prompt in
  let creq := EvPostJson (chatRequest cfg prompt (promptModifierImage cfg)) in
  let ireq op := EvPostForm (imageRequest cfg (Optimizer.imageForm op)) in
  let mreq := EvPostForm (modelRequest cfg png) in
  let optimized := fst (optimizePrompt cfg w prompt (promptModifierImage cfg) s) in
  let evs := events_since s (snd (Optimizer.generate3DModel cfg w prompt s)) in
  (exists tail,
      Forall is_console tail /\ evs = creq :: tail
      /\ exists e, optimized = Rejected e
                   /\ fst (Optimizer.generateImage cfg w prompt s) = Rejected e)
  \/ (exists op e1 e2,
         is_console e1 /\ is_console e2 /\ optimized = Resolved op
         /\ evs = [creq; EvConsole (LogOptimizedPrompt op); ireq op; e1; e2]
         /\ exists e, fst (Optimizer.generateImage cfg w prompt s) = Rejected e)
  \/ (exists op img tail,
         omap posted_url tail = [] /\ optimized = Resolved op
         /\ fst (Optimizer.generateImage cfg w prompt s) = Resolved png
         /\ evs = [creq; EvConsole (LogOptimizedPrompt op); ireq op;
                   EvWriteFile png img; EvConsole (LogImageGenerated png);
                   EvConsole (LogUsingImage png); mreq] ++ tail).
Proof.
  intros png glb creq ireq mreq optimized evs. subst evs optimized.
  destruct (Optimizer_cases cfg w prompt s)
    as [(e & said & Hsaid & Hopt & Himg & Hrun)
       | [(op & e & Hopt & _ & Himg & Hrun)
         | [(op & img & e & Hopt & _ & _ & Himg & Hrun)
           | (op & img & mdl & Hopt & _ & _ & Himg & Hrun)]]];
    rewrite Hrun, Himg, Hopt; simpl snd; simpl fst;
    rewrite ?events_since_logged, ?events_since_state.
  - left. eexists. refine (conj _ (conj eq_refl _)); [| eauto].
    apply Forall_app. split; [exact Hsaid | repeat constructor].
  - right; left. exists op. do 2 eexists.
    refine (conj _ (conj _ (conj eq_refl (conj eq_refl _)))); [exact I | exact I | eauto].
  - right; right. exists op, img. eexists.
    refine (conj _ (conj eq_refl (conj eq_refl eq_refl))). reflexivity.
  - right; right. exists op, img. eexists.
    refine (conj _ (conj eq_refl (conj eq_refl eq_refl))). reflexivity.
Qed.

Lemma no_post_in_tail tail r : omap posted_url tail = [] -> ~ In (EvPostForm r) tail.
Proof.
  induction tail as [| e tail IH]; simpl; [tauto |].
  intros Hnone [-> | Hin].
  - discriminate Hnone.
  - destruct (posted_url e); [discriminate Hnone | exact (IH Hnone Hin)].
Qed.

(** The events of a run of either variant: the requests it holds. *)
Lemma form_posts_of_run v cfg w prompt s r :
  In (EvPostForm r) (events_since s (snd (generate3DModel_of v cfg w prompt s))) ->
  (url r = imageUrl /\ r <> modelRequest cfg (pngPath cfg prompt))
  \/ (r = modelRequest cfg (pngPath cfg prompt)
      /\ fst (generateImage_of v cfg w prompt s) = Resolved (pngPath cfg prompt)).
Proof.
  assert (Himage : forall f, imageRequest cfg f <> modelRequest cfg (pngPath cfg prompt)).
  { intros f H. apply (f_equal url) in H. exact (imageUrl_neq_modelUrl H). }
  destruct v; simpl.
  - destruct (Optimizer_events cfg w prompt s)
      as [(tail & Htail & -> & _)
         | [(op & e1 & e2 & H1 & H2 & _ & -> & _)
           | (op & img & tail & Htail & _ & Himg & ->)]]; simpl.
    + intros [H | H]; [discriminate H | destruct (no_post_console_only _ _ Htail H)].
    + intros [H | [H | [H | [H | [H | []]]]]]; try discriminate H; subst; try contradiction.
      injection H as <-. left. split; [reflexivity | apply Himage].
    + intros [H | [H | [H | [H | [H | [H | [H | H]]]]]]]; try discriminate H.
      * injection H as <-. left. split; [reflexivity | apply Himage].
      * injection H as <-. right. split; [reflexivity | exact Himg].
      * destruct (no_post_in_tail _ _ Htail H).
  - destruct (SystemPrompt_events cfg w prompt s)
      as [(e1 & e2 & H1 & H2 & -> & _) | (img & tail & Htail & Himg & ->)]; simpl.
    + intros [H | [H | [H | []]]]; subst; try contradiction.
      injection H as <-. left. split; [reflexivity | apply Himage].
    + intros [H | [H | [H | [H | [H | H]]]]]; try discriminate H.
      * injection H as <-. left. split; [reflexivity | apply Himage].
      * injection H as <-. right. split; [reflexivity | exact Himg].
      * destruct (no_post_in_tail _ _ Htail H).
Qed.

(** C7: whatever [generate3DModel] posts to the 3D endpoint is a form
    of exactly three entries: the read stream of the image file written
    by the image stage under [image], then [texture_resolution] = "512"
    and [foreground_ratio] = "0.7", whatever the prompt; and it posts
    that request whenever the image stage resolved.  Either variant. *)
Theorem model_request_form_is_fixed v cfg w prompt s :
  let evs := events_since s (snd (generate3DModel_of v cfg w prompt s)) in
  (forall r,
      In (EvPostForm r) evs -> url r = modelUrl ->
      payload r
      = [(js "image", FormStream (path_resolve (dirname cfg) (pngName prompt)));
         (js "texture_resolution", FormText (js "512"));
         (js "foreground_ratio", FormText (js "0.7"))])
  /\ (forall p s1,
         generateImage_of v cfg w prompt s = (Resolved p, s1) ->
         exists r, In (EvPostForm r) evs /\ url r = modelUrl
                   /\ payload r = [(js "image", FormStream p);
                                   (js "texture_resolution", FormText (js "512"));
                                   (js "foreground_ratio", FormText (js "0.7"))]).
Proof.
  intros evs. split.
  - intros r Hin Hurl.
    destruct (form_posts_of_run v cfg w prompt s r Hin) as [[Himg _] | [-> _]].
    + rewrite Himg in Hurl. destruct (imageUrl_neq_modelUrl Hurl).
    + reflexivity.
  - intros p s1 Hrun. exists (modelRequest cfg p).
    split; [| split; reflexivity]. subst evs.
    pose proof (generate3DModel_with_cases cfg w (generateImage_of v cfg w) prompt s) as H3.
    simpl in H3. rewrite Hrun in H3.
    assert (Hsame : generate3DModel_of v cfg w prompt s
                    = generate3DModel_with cfg w (generateImage_of v cfg w) prompt s)
      by (destruct v; reflexivity).
    rewrite Hsame.
    assert (Htrace : exists evs1, trace s1 = trace s ++ evs1).
    { destruct v; simpl in Hrun.
      - destruct (Optimizer_cases cfg w prompt s)
          as [(e & said & _ & _ & Himg & _)
             | [(op & e & _ & _ & Himg & _)
               | [(op & img & e & _ & _ & _ & Himg & _)
                 | (op & img & mdl & _ & _ & _ & Himg & _)]]];
          rewrite Hrun in Himg; try discriminate; injection Himg as -> ->; simpl; eauto.
      - destruct (SystemPrompt_cases cfg w prompt s)
          as [(e & _ & Himg & _)
             | [(img & e & _ & _ & Himg & _) | (img & mdl & _ & _ & Himg & _)]];
          rewrite Hrun in Himg; try discriminate; injection Himg as -> ->; simpl; eauto. }
    destruct Htrace as [evs1 Htrace].
    destruct H3 as [(mdl & _ & ->) | (e & _ & ->)]; unfold events_since, logged; simpl;
      rewrite Htrace, <- app_assoc, drop_app_length;
      apply in_or_app; right; simpl; auto.
Qed.

(** The 3D request of the end-to-end run of ["a red cube"]. *)
Lemma model_request_form_is_fixed_witness :
  let evs := events_since Demo.s0
               (snd (Optimizer.generate3DModel Demo.cfg (Demo.world_of 200 200)
                       (js "a red cube") Demo.s0)) in
  let r := modelRequest Demo.cfg (js "/app/dist/gen_a_red_cube.png") in
  In (EvPostForm r) evs
  /\ url r = modelUrl
  /\ payload r = [(js "image", FormStream (js "/app/dist/gen_a_red_cube.png"));
                  (js "texture_resolution", FormText (js "512"));
                  (js "foreground_ratio", FormText (js "0.7"))].
Proof.
  intros evs r.
  assert (Hin : In (EvPostForm r) evs).
  { vm_compute. do 6 right. left. reflexivity. }
  split; [exact Hin |]. split; [reflexivity |].
  destruct (model_request_form_is_fixed WithOptimizer Demo.cfg (Demo.world_of 200 200)
              (js "a red cube") Demo.s0) as [H _].
  exact (H r Hin eq_refl).
Defined.

(** No endpoint is requested twice in one call: no stage is retried. *)
Lemma requests_NoDup v cfg w prompt s :
  NoDup (omap posted_url (events_since s (snd (generate3DModel_of v cfg w prompt s)))).
Proof.
  pose proof urls_distinct as Hurls.
  destruct v; simpl generate3DModel_of.
  - destruct (Optimizer_events cfg w prompt s)
      as [(tail & Htail & -> & _)
         | [(op & e1 & e2 & H1 & H2 & Hopt & -> & _)
           | (op & img & tail & Htail & Hopt & Himg & ->)]].
    + change (NoDup (chatUrl :: omap posted_url tail)).
      rewrite (posted_console_only _ Htail). repeat constructor. inversion 1.
    + simpl. destruct e1, e2; try contradiction. simpl.
      apply (NoDup_app [chatUrl; imageUrl] [modelUrl]) in Hurls. apply Hurls.
    + rewrite omap_app, Htail. exact Hurls.
  - destruct (SystemPrompt_events cfg w prompt s)
      as [(e1 & e2 & H1 & H2 & -> & _) | (img & tail & Htail & Himg & ->)].
    + simpl. destruct e1, e2; try contradiction. simpl.
      repeat constructor. inversion 1.
    + rewrite omap_app, Htail.
      apply NoDup_cons in Hurls as [_ Hurls]. exact Hurls.
Qed.

(** C8: the stages run one after the other.  In the events of one call
    of [generate3DModel], a request to the 3D endpoint comes after the
    write of the [.png] and after the line that ends a successful image
    stage, and the image stage did resolve; in the first variant a
    request to the image endpoint comes after the line that ends a
    successful [optimizePrompt], and carries the prompt it resolved
    with; and no endpoint is requested twice. *)
Theorem stages_run_in_sequence v cfg w prompt s :
  let png := path_resolve (dirname cfg) (pngName prompt) in
  let evs := events_since s (snd (generate3DModel_of v cfg w prompt s)) in
  (forall i r,
      evs !! i = Some (EvPostForm r) -> url r = modelUrl ->
      fst (generateImage_of v cfg w prompt s) = Resolved png
      /\ exists j k img,
          (j < k < i)%nat
          /\ evs !! j = Some (EvWriteFile png img)
          /\ evs !! k = Some (EvConsole (LogImageGenerated png)))
  /\ (v = WithOptimizer ->
      forall i r,
        evs !! i = Some (EvPostForm r) -> url r = imageUrl ->
        exists j op,
          (j < i)%nat
          /\ evs !! j = Some (EvConsole (LogOptimizedPrompt op))
          /\ fst (optimizePrompt cfg w prompt (promptModifierImage cfg) s) = Resolved op
          /\ payload r = Optimizer.imageForm op)
  /\ NoDup (omap posted_url evs).
Proof.
  intros png evs. subst evs. fold (pngPath cfg prompt) in png. subst png.
  pose proof imageUrl_neq_modelUrl as Hne.
  assert (Himage : forall p, url (modelRequest cfg p) = imageUrl -> False)
    by (intros p H; exact (Hne (eq_sym H))).
  split; [| split; [| apply requests_NoDup]].
  - destruct v; simpl generate3DModel_of; simpl generateImage_of.
    + destruct (Optimizer_events cfg w prompt s)
        as [(tail & Htail & -> & _)
           | [(op & e1 & e2 & H1 & H2 & Hopt & -> & _)
             | (op & img & tail & Htail & Hopt & Himg & ->)]].
      * intros [| i] r Hi _; [discriminate Hi | simpl in Hi].
        destruct (no_post_console_only _ r Htail (lookup_In _ _ _ Hi)).
      * intros [| [| [| [| [| i]]]]] r Hi Hu; simpl in Hi; try discriminate Hi;
          injection Hi as Hi; subst; contradiction.
      * intros [| [| [| [| [| [| [| i]]]]]]] r Hi Hu; simpl in Hi; try discriminate Hi.
        -- injection Hi as <-. destruct (Hne Hu).
        -- split; [exact Himg |]. exists 3%nat, 4%nat, img. repeat split; lia.
        -- destruct (no_post_in_tail _ r Htail (lookup_In _ _ _ Hi)).
    + destruct (SystemPrompt_events cfg w prompt s)
        as [(e1 & e2 & H1 & H2 & -> & _) | (img & tail & Htail & Himg & ->)].
      * intros [| [| [| i]]] r Hi Hu; simpl in Hi; try discriminate Hi;
          injection Hi as Hi; subst; contradiction.
      * intros [| [| [| [| [| i]]]]] r Hi Hu; simpl in Hi; try discriminate Hi.
        -- injection Hi as <-. destruct (Hne Hu).
        -- split; [exact Himg |]. exists 1%nat, 2%nat, img. repeat split; lia.
        -- destruct (no_post_in_tail _ r Htail (lookup_In _ _ _ Hi)).
  - intros ->. simpl generate3DModel_of.
    destruct (Optimizer_events cfg w prompt s)
      as [(tail & Htail & -> & _)
         | [(op & e1 & e2 & H1 & H2 & Hopt & -> & _)
           | (op & img & tail & Htail & Hopt & Himg & ->)]].
    + intros [| i] r Hi _; [discriminate Hi | simpl in Hi].
      destruct (no_post_console_only _ r Htail (lookup_In _ _ _ Hi)).
    + intros [| [| [| [| [| i]]]]] r Hi Hu; simpl in Hi; try discriminate Hi;
        injection Hi as Hi; subst; try contradiction.
      exists 1%nat, op. repeat split; [lia | exact Hopt].
    + intros [| [| [| [| [| [| [| i]]]]]]] r Hi Hu; simpl in Hi; try discriminate Hi.
      * injection Hi as <-. exists 1%nat, op. repeat split; [lia | exact Hopt].
      * injection Hi as <-. destruct (Himage _ Hu).
      * destruct (no_post_in_tail _ r Htail (lookup_In _ _ _ Hi)).
Qed.

(** In the end-to-end run of ["a red cube"], the 3D request is the
    seventh event and the image request the third. *)
Lemma stages_run_in_sequence_witness :
  let png := js "/app/dist/gen_a_red_cube.png" in
  let evs := events_since Demo.s0
               (snd (Optimizer.generate3DModel Demo.cfg (Demo.world_of 200 200)
                       (js "a red cube") Demo.s0)) in
  (evs !! 6%nat = Some (EvPostForm (modelRequest Demo.cfg png))
   /\ exists j k img,
       (j < k < 6)%nat
       /\ evs !! j = Some (EvWriteFile png img)
       /\ evs !! k = Some (EvConsole (LogImageGenerated png)))
  /\ (evs !! 2%nat
      = Some (EvPostForm (imageRequest Demo.cfg
                            (Optimizer.imageForm (js "a glossy red cube, studio light"))))
      /\ exists j op,
          (j < 2)%nat /\ evs !! j = Some (EvConsole (LogOptimizedPrompt op))).
Proof.
  intros png evs.
  destruct (stages_run_in_sequence WithOptimizer Demo.cfg (Demo.world_of 200 200)
              (js "a red cube") Demo.s0) as (Hmodel & Himage & _).
  split.
  - split; [reflexivity |].
    destruct (Hmodel 6%nat (modelRequest Demo.cfg png) eq_refl eq_refl)
      as (_ & j & k & img & Hlt & Hj & Hk).
    exists j, k, img. repeat split; solve [apply Hlt | exact Hj | exact Hk].
  - split; [reflexivity |].
    destruct (Himage eq_refl 2%nat
                (imageRequest Demo.cfg
                   (Optimizer.imageForm (js "a glossy red cube, studio light")))
                eq_refl eq_refl)
      as (j & op & Hlt & Hj & _).
    exists j, op. split; [exact Hlt | exact Hj].
Defined.

(** ** Errors *)

(** C4: no stage alters an error.  The catch block of each of the three
    functions rejects with the very error its [try] block threw, adding
    one console line and nothing else; an error of [optimizePrompt]
    leaves [generateImage] as it is (it is awaited outside the [try]),
    an error of [generateImage] leaves [generate3DModel] as it is; what
    axios rejects with is what the stage rejects with; and no endpoint
    is requested twice, so nothing is retried. *)
Theorem errors_propagate_unchanged v cfg w prompt s e s1 :
  (forall modifier,
      optimizePrompt_block cfg w prompt modifier s = (Rejected e, s1) ->
      optimizePrompt cfg w prompt modifier s
      = (Rejected e, logged s1 [EvConsole (ErrCaught (js "Error optimizing prompt:") e)]))
  /\ (forall f,
         generateImage_block cfg w prompt f s = (Rejected e, s1) ->
         generateImage_post cfg w prompt f s
         = (Rejected e, logged s1 [EvConsole (ErrCaught (js "Error generating image:") e)]))
  /\ (forall generateImage,
         generate3DModel_block cfg w generateImage prompt s = (Rejected e, s1) ->
         generate3DModel_with cfg w generateImage prompt s
         = (Rejected e, logged s1 [EvConsole (ErrCaught (js "Error generating 3D model:") e)]))
  /\ (optimizePrompt cfg w prompt (promptModifierImage cfg) s = (Rejected e, s1) ->
      Optimizer.generateImage cfg w prompt s = (Rejected e, s1))
  /\ (generateImage_of v cfg w prompt s = (Rejected e, s1) ->
      generate3DModel_of v cfg w prompt s
      = (Rejected e, logged s1 [EvConsole (ErrCaught (js "Error generating 3D model:") e)]))
  /\ (forall modifier,
         axios_post_json w (chatRequest cfg prompt modifier) = Rejected e ->
         fst (optimizePrompt cfg w prompt modifier s) = Rejected e)
  /\ (forall f,
         axios_post_form w (fs s) (imageRequest cfg f) = Rejected e ->
         fst (generateImage_post cfg w prompt f s) = Rejected e)
  /\ (forall generateImage p s2,
         generateImage prompt s = (Resolved p, s2) ->
         axios_post_form w (fs s2) (modelRequest cfg p) = Rejected e ->
         fst (generate3DModel_with cfg w generateImage prompt s) = Rejected e)
  /\ NoDup (omap posted_url (events_since s (snd (generate3DModel_of v cfg w prompt s)))).
Proof.
  repeat split.
  - intros modifier H. unfold optimizePrompt. rewrite try_catch_rethrow, H. reflexivity.
  - intros f H. unfold generateImage_post. rewrite try_catch_rethrow, H. reflexivity.
  - intros gi H. unfold generate3DModel_with. rewrite try_catch_rethrow, H. reflexivity.
  - intros H. unfold Optimizer.generateImage, mbind, M_bind. rewrite H. reflexivity.
  - intros H.
    pose proof (generate3DModel_with_cases cfg w (generateImage_of v cfg w) prompt s) as H3.
    simpl in H3. rewrite H in H3. destruct v; exact H3.
  - intros modifier H. unfold optimizePrompt.
    rewrite try_catch_rethrow, optimizePrompt_block_run, H. reflexivity.
  - intros f H. unfold generateImage_post.
    rewrite try_catch_rethrow, generateImage_block_run, H. reflexivity.
  - intros gi p s2 Hgi H. unfold generate3DModel_with.
    rewrite try_catch_rethrow, generate3DModel_block_run, Hgi. simpl. rewrite H. reflexivity.
  - apply requests_NoDup.
Qed.

(** A chat endpoint that cannot be reached: the error of axios comes
    out of every stage as it went in. *)
Lemma errors_propagate_unchanged_witness :
  let refused := AxiosError (js "ECONNREFUSED") None in
  let w := mkWorld (fun _ => Rejected refused)
             (axios_post_form (Demo.world_of 200 200)) Demo.latin1 Demo.writable in
  fst (optimizePrompt Demo.cfg w (js "a red cube") (promptModifierImage Demo.cfg) Demo.s0)
  = Rejected refused
  /\ fst (Optimizer.generateImage Demo.cfg w (js "a red cube") Demo.s0) = Rejected refused
  /\ fst (Optimizer.generate3DModel Demo.cfg w (js "a red cube") Demo.s0) = Rejected refused.
Proof.
  intros refused w.
  destruct (errors_propagate_unchanged WithOptimizer Demo.cfg w (js "a red cube") Demo.s0
              refused
              (snd (optimizePrompt Demo.cfg w (js "a red cube")
                      (promptModifierImage Demo.cfg) Demo.s0)))
    as (_ & _ & _ & Himage & Hmodel & Hchat & _).
  split; [exact (Hchat _ eq_refl) |].
  pose proof (Himage eq_refl) as Hi.
  split; [rewrite Hi; reflexivity |].
  pose proof (Hmodel Hi) as Hm. simpl in Hm. rewrite Hm. reflexivity.
Defined.

(** C10: in the first variant both files are named after the prompt
    the caller passed, not after the prompt the optimizer returned:
    the optimized prompt goes into the form sent to the image endpoint,
    and the two files written are [stem.png] and [stem.glb] for the one
    stem [<__dirname>/gen_<sanitizeFileName(prompt)>]. *)
Theorem optimizer_variant_names_files_after_prompt cfg w prompt s path s' :
  Optimizer.generate3DModel cfg w prompt s = (Resolved path, s') ->
  let stem := dirname cfg ++ js "/" ++ js "gen_" ++ sanitizeFileName prompt in
  path = stem ++ js ".glb"
  /\ exists optimizedPrompt img mdl,
      fst (optimizePrompt cfg w prompt (promptModifierImage cfg) s) = Resolved optimizedPrompt
      /\ In (EvPostForm (imageRequest cfg [(js "prompt", FormText optimizedPrompt);
                                           (js "output_format", FormText (js "png"))]))
           (events_since s s')
      /\ writes (events_since s s') = [(stem ++ js ".png", img); (stem ++ js ".glb", mdl)]
      /\ fs s' = <[stem ++ js ".glb" := mdl]> (<[stem ++ js ".png" := img]> (fs s)).
Proof.
  intros Hrun stem.
  assert (Hpng : pngPath cfg prompt = stem ++ js ".png") by apply pngPath_stem.
  assert (Hglb : glbPath cfg prompt = stem ++ js ".glb") by apply glbPath_stem.
  destruct (Optimizer_generate3DModel_resolved _ _ _ _ _ _ Hrun)
    as (-> & op & img & mdl & Hopt & Hin & Hfs & Hw).
  rewrite Hpng, Hglb in *. split; [reflexivity |].
  exists op, img, mdl. rewrite Hopt. repeat split; assumption.
Qed.

(** For the prompt ["a red cube"] the optimizer returns
    ["a glossy red cube, studio light"]; the files are named
    [gen_a_red_cube]. *)
Lemma optimizer_variant_names_files_after_prompt_witness :
  let run := Optimizer.generate3DModel Demo.cfg (Demo.world_of 200 200)
               (js "a red cube") Demo.s0 in
  fst (optimizePrompt Demo.cfg (Demo.world_of 200 200) (js "a red cube")
         (promptModifierImage Demo.cfg) Demo.s0)
  = Resolved (js "a glossy red cube, studio light")
  /\ fst run = Resolved (js "/app/dist/gen_a_red_cube.glb")
  /\ map fst (writes (events_since Demo.s0 (snd run)))
     = [js "/app/dist/gen_a_red_cube.png"; js "/app/dist/gen_a_red_cube.glb"].
Proof.
  intros run.
  assert (Hrun : run = (Resolved (js "/app/dist/gen_a_red_cube.glb"), snd run))
    by (vm_compute; reflexivity).
  destruct (optimizer_variant_names_files_after_prompt
              Demo.cfg (Demo.world_of 200 200) (js "a red cube") Demo.s0 _ _ Hrun)
    as (_ & op & img & mdl & _ & _ & Hw & _).
  split; [reflexivity |]. split; [rewrite Hrun; reflexivity |].
  rewrite Hw. reflexivity.
Defined.

(** * Further properties *)

(** ** The test driver *)

Lemma main_with_run (g : list N -> M (list N)) (prompt : list N) (s : state) :
  main_with g prompt s =
  match g prompt s with
  | (Resolved p, s1) => (Resolved tt, logged s1 [EvConsole (LogModelSaved p)])
  | (Rejected e, s1) =>
    (Resolved tt,
     logged s1 [EvConsole (ErrCaught (js "Failed to generate 3D model:") e)])
  end.
Proof.
  unfold main_with, try_catch. run_step.
  destruct (g prompt s) as [[p | e] s1]; reflexivity.
Qed.

Lemma main_of_run v cfg w argv2 s :
  main_of v cfg w argv2 s
  = main_with (generate3DModel_of v cfg w) (main_prompt v argv2) s.
Proof. destruct v; reflexivity. Qed.

(** X1: the self-invoked driver never rejects, whatever the endpoints
    do: it runs [generate3DModel] on its prompt (in the first variant
    the command-line argument, or the default prompt when that is
    absent or empty), resolves, leaves the disk as [generate3DModel]
    left it, and adds exactly one console line, the path of the model
    when [generate3DModel] resolved and its error when it rejected. *)
Theorem main_never_rejects v cfg w argv2 s :
  let run := generate3DModel_of v cfg w (main_prompt v argv2) s in
  fst (main_of v cfg w argv2 s) = Resolved tt
  /\ fs (snd (main_of v cfg w argv2 s)) = fs (snd run)
  /\ trace (snd (main_of v cfg w argv2 s))
     = trace (snd run)
         ++ [EvConsole
               match fst run with
               | Resolved p => LogModelSaved p
               | Rejected e => ErrCaught (js "Failed to generate 3D model:") e
               end].
Proof.
  intros run. subst run. rewrite main_of_run, main_with_run.
  destruct (generate3DModel_of v cfg w (main_prompt v argv2) s) as [[p | e] s1];
    repeat split.
Qed.

(** ** More on the optimizer *)

Lemma optimizePrompt_run cfg w inputPrompt modifier s :
  optimizePrompt cfg w inputPrompt modifier s =
  match optimizePrompt_block cfg w inputPrompt modifier s with
  | (Resolved p, s') => (Resolved p, s')
  | (Rejected e, s') =>
    (Rejected e, logged s' [EvConsole (ErrCaught (js "Error optimizing prompt:") e)])
  end.
Proof. unfold optimizePrompt. apply try_catch_rethrow. Qed.

(** X2: [optimizePrompt] makes exactly one request, the chat
    completion carrying the modifier as the system message and the
    prompt as the user message, and nothing else but console lines: it
    never touches the disk, whether it resolves or rejects. *)
Theorem optimizePrompt_posts_once_and_never_writes cfg w inputPrompt modifier s :
  let s' := snd (optimizePrompt cfg w inputPrompt modifier s) in
  fs s' = fs s
  /\ exists lines,
      events_since s s'
      = EvPostJson
          (mkRequest (js "https://api.openai.com/v1/chat/completions")
             [(js "Authorization", js "Bearer " ++ openAIKey cfg);
              (js "Content-Type", js "application/json")]
             RtJson
             (mkChat (js "gpt-4")
                [(js "system", modifier); (js "user", inputPrompt)] 100 (7 # 10)))
        :: lines
      /\ Forall is_console lines.
Proof.
  intros s'. subst s'.
  destruct (optimizePrompt_cases cfg w inputPrompt modifier s)
    as [(resp & c & p & _ & _ & _ & _ & ->) | (e & said & -> & Hsaid & _)];
    simpl snd; rewrite events_since_logged.
  - split; [reflexivity |]. eexists. split; [reflexivity |]. repeat constructor.
  - split; [reflexivity |]. eexists. split; [reflexivity |].
    apply Forall_app. split; [exact Hsaid | repeat constructor].
Qed.

(** X3: a chat response of a status other than 200 makes
    [optimizePrompt] reject, after a console line naming the status.
    The error is an [Error] whose message is [data.error.message] when
    that is truthy and ["Unknown error occurred"] when it is missing or
    empty; but when the body has no [error] at all the fallback text is
    not reached: reading [.message] of [undefined] throws a [TypeError]
    instead. *)
Theorem optimizePrompt_rejects_other_status cfg w inputPrompt modifier s resp props :
  axios_post_json w (chatRequest cfg inputPrompt modifier) = Resolved resp ->
  status resp <> 200%Z ->
  data resp = JObj props ->
  let run := optimizePrompt cfg w inputPrompt modifier s in
  let said e :=
    [EvPostJson (chatRequest cfg inputPrompt modifier);
     EvConsole (ErrOpenAIStatus (status resp));
     EvConsole (ErrCaught (js "Error optimizing prompt:") e)] in
  (forall eprops message,
      Js.own_prop (js "error") props = JObj eprops ->
      Js.own_prop (js "message") eprops = JStr message ->
      message <> [] ->
      run = (Rejected (NewError (JStr message)), logged s (said (NewError (JStr message)))))
  /\ (forall eprops,
         Js.own_prop (js "error") props = JObj eprops ->
         Js.own_prop (js "message") eprops = JUndefined
         \/ Js.own_prop (js "message") eprops = JNull
         \/ Js.own_prop (js "message") eprops = JStr [] ->
         let e := NewError (JStr (js "Unknown error occurred")) in
         run = (Rejected e, logged s (said e)))
  /\ (Js.own_prop (js "error") props = JUndefined ->
      let e := TypeError JUndefined (js "message") in
      run = (Rejected e, logged s (said e))).
Proof.
  intros Hpost Hst Hdata run said. subst run.
  assert (Hrun : forall m,
             error_message (data resp) = m ->
             optimizePrompt cfg w inputPrompt modifier s
             = match m with
               | Rejected e => (Rejected e, logged s (said e))
               | Resolved m =>
                 let e := NewError (Js.or m (JStr (js "Unknown error occurred"))) in
                 (Rejected e, logged s (said e))
               end).
  { intros m <-. rewrite optimizePrompt_run, optimizePrompt_block_run, Hpost.
    destruct (Z.eqb_spec (status resp) 200) as [H | _]; [contradiction |].
    simpl. destruct (error_message (data resp)); rewrite logged_logged; reflexivity. }
  rewrite Hdata in Hrun. unfold error_message in Hrun. simpl in Hrun.
  split; [| split].
  - intros eprops message He Hm Hne.
    rewrite (Hrun _ eq_refl), He. simpl. rewrite Hm. unfold Js.or. simpl.
    rewrite bool_decide_eq_false_2 by exact Hne. reflexivity.
  - intros eprops He Hm e. subst e.
    rewrite (Hrun _ eq_refl), He. simpl.
    destruct Hm as [-> | [-> | ->]]; reflexivity.
  - intros He e. subst e. rewrite (Hrun _ eq_refl), He. reflexivity.
Qed.

(** A 429 with a message, and a 500 with an empty body object, through
    an axios that resolves whatever the status is. *)
Lemma optimizePrompt_rejects_other_status_witness :
  let body := JObj [(js "error", JObj [(js "message", JStr (js "Rate limit reached"))])] in
  let w1 := mkWorld (fun _ => Resolved (mkResponse 429 body))
              (axios_post_form (Demo.world_of 200 200)) Demo.latin1 Demo.writable in
  let w2 := mkWorld (fun _ => Resolved (mkResponse 500 (JObj [])))
              (axios_post_form (Demo.world_of 200 200)) Demo.latin1 Demo.writable in
  fst (optimizePrompt Demo.cfg w1 (js "a red cube") (js "style") Demo.s0)
  = Rejected (NewError (JStr (js "Rate limit reached")))
  /\ fst (optimizePrompt Demo.cfg w2 (js "a red cube") (js "style") Demo.s0)
     = Rejected (TypeError JUndefined (js "message")).
Proof.
  intros body w1 w2. split.
  - destruct (optimizePrompt_rejects_other_status Demo.cfg w1 (js "a red cube") (js "style")
                Demo.s0 _ _ eq_refl ltac:(discriminate) eq_refl) as (H & _ & _).
    rewrite (H _ (js "Rate limit reached") eq_refl eq_refl ltac:(discriminate)).
    reflexivity.
  - destruct (optimizePrompt_rejects_other_status Demo.cfg w2 (js "a red cube") (js "style")
                Demo.s0 _ _ eq_refl ltac:(discriminate) eq_refl) as (_ & _ & H).
    rewrite (H eq_refl). reflexivity.
Defined.

(** X4: a chat response of status 200 whose body does not hold a
    string at [choices[0].message.content] makes [optimizePrompt]
    reject with a [TypeError]: an empty [choices] array fails at
    [.message] of [undefined], a [content] that is no string (as
    [null]) fails at [.trim()]. *)
Theorem optimizePrompt_rejects_malformed_body cfg w inputPrompt modifier s resp props :
  axios_post_json w (chatRequest cfg inputPrompt modifier) = Resolved resp ->
  status resp = 200%Z ->
  data resp = JObj props ->
  let run := fst (optimizePrompt cfg w inputPrompt modifier s) in
  (Js.own_prop (js "choices") props = JArr [] ->
   run = Rejected (TypeError JUndefined (js "message")))
  /\ (Js.own_prop (js "choices") props = JUndefined ->
      run = Rejected (TypeError JUndefined (js "0")))
  /\ (forall cprops rest mprops content,
         Js.own_prop (js "choices") props = JArr (JObj cprops :: rest) ->
         Js.own_prop (js "message") cprops = JObj mprops ->
         Js.own_prop (js "content") mprops = content ->
         (forall text, content <> JStr text) ->
         run = Rejected (TypeError content (js "trim"))).
Proof.
  intros Hpost Hst Hdata run. subst run.
  assert (Hrun : fst (optimizePrompt cfg w inputPrompt modifier s)
                 = match choice_content (JObj props) with
                   | Rejected e => Rejected e
                   | Resolved c =>
                     match Js.call_trim c with
                     | Rejected e => Rejected e
                     | Resolved p => Resolved p
                     end
                   end).
  { rewrite optimizePrompt_run, optimizePrompt_block_run, Hpost, Hst, Hdata. simpl.
    destruct (choice_content (JObj props)) as [c | e]; [| reflexivity].
    destruct (Js.call_trim c); reflexivity. }
  rewrite Hrun. split; [| split].
  - intros Hc. unfold choice_content. simpl. rewrite Hc. reflexivity.
  - intros Hc. unfold choice_content. simpl. rewrite Hc. reflexivity.
  - intros cprops rest mprops content Hc Hm Hcontent Hnot.
    rewrite (choice_content_first_choice _ _ _ _ Hc Hm), Hcontent.
    destruct content; try reflexivity. destruct (Hnot s0 eq_refl).
Qed.

(** A completion without text: [content] is [null]. *)
Lemma optimizePrompt_rejects_malformed_body_witness :
  let body := JObj [(js "choices",
                     JArr [JObj [(js "message", JObj [(js "content", JNull)])]])] in
  let w := mkWorld (fun _ => Resolved (mkResponse 200 body))
             (axios_post_form (Demo.world_of 200 200)) Demo.latin1 Demo.writable in
  fst (optimizePrompt Demo.cfg w (js "a red cube") (js "style") Demo.s0)
  = Rejected (TypeError JNull (js "trim")).
Proof.
  intros body w.
  destruct (optimizePrompt_rejects_malformed_body Demo.cfg w (js "a red cube") (js "style")
              Demo.s0 _ _ eq_refl eq_refl eq_refl) as (_ & _ & H).
  exact (H _ _ _ JNull eq_refl eq_refl eq_refl ltac:(discriminate)).
Defined.

(** ** The disk after a run *)

(** A run of either variant ends in one of three ways. *)
Lemma generate3DModel_of_outcomes v cfg w prompt s :
  let png := pngPath cfg prompt in
  let glb := glbPath cfg prompt in
  let run := generate3DModel_of v cfg w prompt s in
  (exists e, fst run = Rejected e /\ fs (snd run) = fs s
             /\ writes (events_since s (snd run)) = [])
  \/ (exists f img e,
         axios_post_form w (fs s) (imageRequest cfg f) = Resolved (mkResponse 200 img)
         /\ stage_failure w (js "3D model generation failed: ") (<[png := img]> (fs s)) glb
              (axios_post_form w (<[png := img]> (fs s)) (modelRequest cfg png)) = Some e
         /\ fst run = Rejected e
         /\ fs (snd run) = <[png := img]> (fs s)
         /\ writes (events_since s (snd run)) = [(png, img)])
  \/ (exists f img mdl,
         axios_post_form w (fs s) (imageRequest cfg f) = Resolved (mkResponse 200 img)
         /\ axios_post_form w (<[png := img]> (fs s)) (modelRequest cfg png)
            = Resolved (mkResponse 200 mdl)
         /\ fst run = Resolved glb
         /\ fs (snd run) = <[glb := mdl]> (<[png := img]> (fs s))
         /\ writes (events_since s (snd run)) = [(png, img); (glb, mdl)]).
Proof.
  intros png glb run. subst run png glb. destruct v; simpl generate3DModel_of.
  - destruct (Optimizer_cases cfg w prompt s)
      as [(e & said & Hsaid & _ & _ & ->)
         | [(op & e & _ & _ & _ & ->)
           | [(op & img & e & _ & Hi & Hm & _ & ->)
             | (op & img & mdl & _ & Hi & Hm & _ & ->)]]];
      simpl fst; simpl snd; rewrite ?events_since_logged, ?events_since_state.
    + left. exists e. repeat split. unfold writes.
      change (omap _ (?x :: said ++ ?l)) with (omap
        (fun e0 => match e0 with EvWriteFile p c => Some (p, c) | _ => None end)
        ([x] ++ said ++ l)).
      rewrite !omap_app. simpl.
      clear -Hsaid. induction Hsaid as [| ev said Hev _ IH]; [reflexivity |].
      destruct ev; simpl in Hev; try contradiction. exact IH.
    + left. exists e. repeat split.
    + right; left. exists (Optimizer.imageForm op), img, e. repeat split; assumption.
    + right; right. exists (Optimizer.imageForm op), img, mdl. repeat split; assumption.
  - destruct (SystemPrompt_cases cfg w prompt s)
      as [(e & _ & _ & ->)
         | [(img & e & Hi & Hm & _ & ->) | (img & mdl & Hi & Hm & _ & ->)]];
      simpl fst; simpl snd; rewrite ?events_since_logged, ?events_since_state.
    + left. exists e. repeat split.
    + right; left. exists (SystemPrompt.imageForm cfg prompt), img, e.
      repeat split; assumption.
    + right; right. exists (SystemPrompt.imageForm cfg prompt), img, mdl.
      repeat split; assumption.
Qed.

(** X5: a call of [generate3DModel] touches no file but its own two:
    whatever the endpoints do and however it ends, a path other than
    the [.png] and the [.glb] of the prompt holds after the call what
    it held before.  Either variant. *)
Theorem generate3DModel_leaves_other_files v cfg w prompt s (p : list N) :
  p <> path_resolve (dirname cfg) (pngName prompt) ->
  p <> path_resolve (dirname cfg) (glbName prompt) ->
  fs (snd (generate3DModel_of v cfg w prompt s)) !! p = fs s !! p.
Proof.
  intros Hpng Hglb. fold (pngPath cfg prompt) in Hpng. fold (glbPath cfg prompt) in Hglb.
  destruct (generate3DModel_of_outcomes v cfg w prompt s)
    as [(e & _ & -> & _)
       | [(f & img & e & _ & _ & _ & -> & _) | (f & img & mdl & _ & _ & _ & -> & _)]].
  - reflexivity.
  - apply lookup_insert_ne. congruence.
  - rewrite !lookup_insert_ne by congruence. reflexivity.
Qed.

(** A file of another prompt survives a complete run. *)
Lemma generate3DModel_leaves_other_files_witness :
  let before := mkState {[ js "/app/dist/gen_a_blue_ball.glb" := Demo.modelBytes ]} [] in
  fs (snd (Optimizer.generate3DModel Demo.cfg (Demo.world_of 200 200)
             (js "a red cube") before))
  !! js "/app/dist/gen_a_blue_ball.glb" = Some Demo.modelBytes.
Proof.
  intros before.
  refine (eq_trans
            (generate3DModel_leaves_other_files WithOptimizer Demo.cfg
               (Demo.world_of 200 200) (js "a red cube") before
               (js "/app/dist/gen_a_blue_ball.glb") _ _) _).
  - vm_compute. discriminate.
  - vm_compute. discriminate.
  - reflexivity.
Defined.



(** X7: a call of [generate3DModel] resolves only if the image request
    and the 3D request both resolved with status 200, the 3D request
    being made on a disk that already holds the image; the two files
    then hold exactly the bytes of the two responses, and the value is
    the path of the [.glb].  Either variant. *)
Theorem resolved_run_stores_the_responses v cfg w prompt s p :
  fst (generate3DModel_of v cfg w prompt s) = Resolved p ->
  let s' := snd (generate3DModel_of v cfg w prompt s) in
  let png := path_resolve (dirname cfg) (pngName prompt) in
  let glb := path_resolve (dirname cfg) (glbName prompt) in
  p = glb
  /\ exists f img mdl,
      axios_post_form w (fs s) (imageRequest cfg f) = Resolved (mkResponse 200 img)
      /\ axios_post_form w (<[png := img]> (fs s)) (modelRequest cfg png)
         = Resolved (mkResponse 200 mdl)
      /\ fs s' !! png = Some img
      /\ fs s' !! glb = Some mdl.
Proof.
  intros Hres s' png glb. subst s' png glb.
  fold (pngPath cfg prompt) (glbPath cfg prompt).
  destruct (generate3DModel_of_outcomes v cfg w prompt s)
    as [(e & Hrej & _)
       | [(f & img & e & _ & _ & Hrej & _)
         | (f & img & mdl & Hi & Hm & Hres' & Hfs & _)]];
    try (rewrite Hres in Hrej; discriminate).
  rewrite Hres in Hres'. injection Hres' as ->. split; [reflexivity |].
  exists f, img, mdl. rewrite Hfs.
  destruct (both_files_present cfg prompt (fs s) img mdl) as [Hpng Hglb].
  repeat split; assumption.
Qed.

Lemma resolved_run_stores_the_responses_witness :
  let s' := snd (SystemPrompt.generate3DModel Demo.cfg (Demo.world_of 200 200)
                   (js "a red cube") Demo.s0) in
  fs s' !! js "/app/dist/gen_a_red_cube.png" = Some Demo.imageBytes
  /\ fs s' !! js "/app/dist/gen_a_red_cube.glb" = Some Demo.modelBytes.
Proof.
  intros s'.
  destruct (resolved_run_stores_the_responses WithSystemPrompt Demo.cfg
              (Demo.world_of 200 200) (js "a red cube") Demo.s0
              (js "/app/dist/gen_a_red_cube.glb") eq_refl)
    as (_ & f & img & mdl & _ & _ & Hpng & Hglb).
  split; reflexivity.
Defined.

(** ** Requests and console lines of a run *)

Lemma well_addressed_console cfg evs :
  Forall is_console evs -> Forall (well_addressed cfg) evs.
Proof.
  intros H. eapply Forall_impl; [exact H |].
  intros e He. destruct e; simpl in He; try contradiction. exact I.
Qed.

(** X8: the two API keys never cross.  In every run of either variant,
    a JSON request goes to the chat endpoint and carries the OpenAI key
    as bearer token, a form request goes to the image or the 3D
    endpoint of Stability and carries the Stability key; the second
    variant makes no JSON request at all. *)
Theorem keys_are_sent_to_their_own_endpoint v cfg w prompt s :
  let evs := events_since s (snd (generate3DModel_of v cfg w prompt s)) in
  Forall (well_addressed cfg) evs
  /\ (v = WithSystemPrompt -> forall r, ~ In (EvPostJson r) evs).
Proof.
  intros evs. subst evs. destruct v; simpl generate3DModel_of.
  - split; [| discriminate].
    destruct (Optimizer_cases cfg w prompt s)
      as [(e & said & Hsaid & _ & _ & ->)
         | [(op & e & _ & _ & _ & ->)
           | [(op & img & e & _ & _ & _ & _ & ->)
             | (op & img & mdl & _ & _ & _ & _ & ->)]]];
      simpl snd; rewrite ?events_since_logged, ?events_since_state.
    + constructor; [split; reflexivity |].
      apply Forall_app. split; [apply well_addressed_console; exact Hsaid |].
      repeat (constructor; simpl; auto).
    + repeat (constructor; simpl; auto).
    + repeat (constructor; simpl; auto).
    + repeat (constructor; simpl; auto).
  - destruct (SystemPrompt_cases cfg w prompt s)
      as [(e & _ & _ & ->)
         | [(img & e & _ & _ & _ & ->) | (img & mdl & _ & _ & _ & ->)]];
      simpl snd; rewrite ?events_since_logged, ?events_since_state.
    + split; [repeat (constructor; simpl; auto) |].
      intros _ r Hin. simpl in Hin. intuition discriminate.
    + split; [repeat (constructor; simpl; auto) |].
      intros _ r Hin. simpl in Hin. intuition discriminate.
    + split; [repeat (constructor; simpl; auto) |].
      intros _ r Hin. simpl in Hin. intuition discriminate.
Qed.

(** The second variant never posts the chat request of the first. *)
Lemma keys_are_sent_to_their_own_endpoint_witness :
  ~ In (EvPostJson (chatRequest Demo.cfg (js "a red cube") (promptModifierImage Demo.cfg)))
      (events_since Demo.s0
         (snd (SystemPrompt.generate3DModel Demo.cfg (Demo.world_of 200 200)
                 (js "a red cube") Demo.s0))).
Proof.
  destruct (keys_are_sent_to_their_own_endpoint WithSystemPrompt Demo.cfg
              (Demo.world_of 200 200) (js "a red cube") Demo.s0) as [_ H].
  exact (H eq_refl _).
Defined.

(** X10: the second variant begins every run with the image request,
    a form of four entries: the system prompt trimmed, one space and
    the prompt of the caller as it is (neither trimmed nor sanitized)
    under [prompt], then [width] and [height] = "512" and
    [output_format] = "png". *)
Theorem second_variant_image_request cfg w prompt s :
  exists rest,
    events_since s (snd (SystemPrompt.generate3DModel cfg w prompt s))
    = EvPostForm
        (mkRequest (js "https://api.stability.ai/v2beta/stable-image/generate/core")
           [(js "Authorization", js "Bearer " ++ stabilityAIKey cfg);
            (js "Accept", js "image/*")]
           RtArrayBuffer
           [(js "prompt", FormText (JsString.trim (systemPrompt cfg) ++ js " " ++ prompt));
            (js "width", FormText (js "512"));
            (js "height", FormText (js "512"));
            (js "output_format", FormText (js "png"))])
      :: rest.
Proof.
  destruct (SystemPrompt_cases cfg w prompt s)
    as [(e & _ & _ & ->)
       | [(img & e & _ & _ & _ & ->) | (img & mdl & _ & _ & _ & ->)]];
    simpl snd; rewrite ?events_since_logged, ?events_since_state;
    eexists; reflexivity.
Qed.

Lemma optimizePrompt_rejected_lines cfg w inputPrompt modifier s e said :
  optimizePrompt cfg w inputPrompt modifier s
  = (Rejected e,
     logged s (EvPostJson (chatRequest cfg inputPrompt modifier) :: said
                 ++ [EvConsole (ErrCaught (js "Error optimizing prompt:") e)])) ->
  omap caught_error said = [].
Proof.
  set (req := chatRequest cfg inputPrompt modifier).
  set (errO := EvConsole (ErrCaught (js "Error optimizing prompt:") e)).
  intros Hrun.
  assert (Hshape : forall lines e',
             (@Rejected (list N) e',
              logged (logged s (EvPostJson req :: lines))
                [EvConsole (ErrCaught (js "Error optimizing prompt:") e')])
             = (Rejected e, logged s (EvPostJson req :: said ++ [errO])) ->
             said = lines).
  { intros lines e' H. apply (f_equal (fun x => trace (snd x))) in H.
    unfold logged in H. simpl in H. rewrite <- app_assoc in H.
    apply app_inv_head in H. injection H as H.
    apply app_inj_tail in H as [H _]. symmetry. exact H. }
  rewrite optimizePrompt_run, optimizePrompt_block_run in Hrun. fold req in Hrun.
  destruct (axios_post_json w req) as [resp | e0].
  - destruct (status resp =? 200)%Z.
    + destruct (choice_content (data resp)) as [c | e0].
      * destruct (Js.call_trim c) as [p | e0]; [discriminate Hrun |].
        rewrite (Hshape [] _ Hrun). reflexivity.
      * rewrite (Hshape [] _ Hrun). reflexivity.
    + simpl in Hrun.
      destruct (error_message (data resp)) as [m | e0];
        rewrite (Hshape [_] _ Hrun); reflexivity.
  - rewrite (Hshape [] _ Hrun). reflexivity.
Qed.

(** X9: the console never shows another error than the one the call
    rejects with.  When [generate3DModel] rejects with [e], every
    [console.error] of a catch block in the run reports that same [e],
    there are one or two of them (each enclosing stage prints it
    again), and the last event of the run is the one of
    [generate3DModel] itself; when it resolves there is none. *)
Theorem console_reports_the_rejection v cfg w prompt s :
  let run := generate3DModel_of v cfg w prompt s in
  let evs := events_since s (snd run) in
  match fst run with
  | Rejected e =>
    (omap caught_error evs = [e] \/ omap caught_error evs = [e; e])
    /\ last evs = Some (EvConsole (ErrCaught (js "Error generating 3D model:") e))
  | Resolved _ => omap caught_error evs = []
  end.
Proof.
  intros run evs. subst evs run. destruct v; simpl generate3DModel_of.
  - destruct (Optimizer_cases cfg w prompt s)
      as [(e & said & Hsaid & Hopt & _ & ->)
         | [(op & e & _ & _ & _ & ->)
           | [(op & img & e & _ & _ & _ & _ & ->)
             | (op & img & mdl & _ & _ & _ & _ & ->)]]];
      simpl fst; simpl snd; rewrite ?events_since_logged, ?events_since_state.
    + apply optimizePrompt_rejected_lines in Hopt. split.
      * right.
        change (omap caught_error (?x :: said ++ ?l))
          with (omap caught_error ([x] ++ said ++ l)).
        rewrite !omap_app, Hopt. reflexivity.
      * rewrite app_comm_cons.
        change [?a; ?b] with ([a] ++ [b]). rewrite !app_assoc. apply last_snoc.
    + split; [right; reflexivity | reflexivity].
    + split; [left; reflexivity | reflexivity].
    + reflexivity.
  - destruct (SystemPrompt_cases cfg w prompt s)
      as [(e & _ & _ & ->)
         | [(img & e & _ & _ & _ & ->) | (img & mdl & _ & _ & _ & ->)]];
      simpl fst; simpl snd; rewrite ?events_since_logged, ?events_since_state.
    + split; [right; reflexivity | reflexivity].
    + split; [left; reflexivity | reflexivity].
    + reflexivity.
Qed.

(** X14: a Stability endpoint that answers with a status other than
    200 makes the call reject with an error naming that very status,
    at the image stage (no file written) as at the 3D stage, in either
    variant; in the first variant the image request is the one made
    with the prompt the optimizer resolved with. *)
Theorem failing_status_is_named v cfg w prompt s (st : Z) :
  st <> 200%Z ->
  let run := generate3DModel_of v cfg w prompt s in
  (answered_status
     (axios_post_form w (fs s) (imageRequest cfg (SystemPrompt.imageForm cfg prompt))) st ->
   v = WithSystemPrompt ->
   exists e, fst run = Rejected e /\ references_status e st /\ fs (snd run) = fs s)
  /\ (forall op,
         fst (optimizePrompt cfg w prompt (promptModifierImage cfg) s) = Resolved op ->
         answered_status
           (axios_post_form w (fs s) (imageRequest cfg (Optimizer.imageForm op))) st ->
         v = WithOptimizer ->
         exists e, fst run = Rejected e /\ references_status e st /\ fs (snd run) = fs s)
  /\ (forall p s1,
         generateImage_of v cfg w prompt s = (Resolved p, s1) ->
         answered_status (axios_post_form w (fs s1) (modelRequest cfg p)) st ->
         exists e, fst run = Rejected e /\ references_status e st /\ fs (snd run) = fs s1).
Proof.
  intros Hst run. subst run.
  assert (Hok : forall (d : list Byte.byte) o,
             o = Resolved (mkResponse 200%Z d) -> answered_status o st -> False).
  { intros d o -> H. simpl in H. congruence. }
  split; [| split].
  - intros Hans ->. simpl generate3DModel_of.
    destruct (SystemPrompt_cases cfg w prompt s)
      as [(e & Hfail & _ & ->)
         | [(img & e & Hi & _) | (img & mdl & Hi & _)]];
      try (destruct (Hok _ _ Hi Hans)).
    exists e. repeat split. eapply stage_failure_references; eassumption.
  - intros op Hopt Hans ->. simpl generate3DModel_of.
    destruct (Optimizer_cases cfg w prompt s)
      as [(e & said & _ & Hopt' & _)
         | [(op' & e & Hopt' & Hfail & _ & ->)
           | [(op' & img & e & Hopt' & Hi & _)
             | (op' & img & mdl & Hopt' & Hi & _)]]];
      rewrite Hopt' in Hopt; try discriminate; injection Hopt as ->;
      try (destruct (Hok _ _ Hi Hans)).
    exists e. repeat split. eapply stage_failure_references; eassumption.
  - intros p s1 Himg Hans.
    pose proof (generate3DModel_with_cases cfg w (generateImage_of v cfg w) prompt s) as H3.
    simpl in H3. rewrite Himg in H3.
    assert (Hsame : generate3DModel_of v cfg w prompt s
                    = generate3DModel_with cfg w (generateImage_of v cfg w) prompt s)
      by (destruct v; reflexivity).
    rewrite Hsame.
    destruct H3 as [(mdl & Hm & _) | (e & Hfail & ->)].
    + destruct (Hok _ _ Hm Hans).
    + exists e. repeat split. eapply stage_failure_references; eassumption.
Qed.

(** The image endpoint answers 402 through the real axios; the 3D
    endpoint answers 204, which the real axios resolves. *)
Lemma failing_status_is_named_witness :
  (exists e,
      fst (SystemPrompt.generate3DModel Demo.cfg (Demo.axios_world_of 402 200)
             (js "a red cube") Demo.s0) = Rejected e
      /\ references_status e 402)
  /\ (exists e,
         fst (Optimizer.generate3DModel Demo.cfg (Demo.axios_world_of 200 204)
                (js "a red cube") Demo.s0) = Rejected e
         /\ references_status e 204).
Proof.
  split.
  - destruct (failing_status_is_named WithSystemPrompt Demo.cfg (Demo.axios_world_of 402 200)
                (js "a red cube") Demo.s0 402 ltac:(discriminate)) as (H & _ & _).
    destruct (H eq_refl eq_refl) as (e & Hrun & Href & _).
    exists e. split; assumption.
  - destruct (failing_status_is_named WithOptimizer Demo.cfg (Demo.axios_world_of 200 204)
                (js "a red cube") Demo.s0 204 ltac:(discriminate)) as (_ & _ & H).
    destruct (H (js "/app/dist/gen_a_red_cube.png")
                (snd (Optimizer.generateImage Demo.cfg (Demo.axios_world_of 200 204)
                        (js "a red cube") Demo.s0))
                eq_refl eq_refl) as (e & Hrun & Href & _).
    exists e. split; assumption.
Defined.

(** ** More on file names *)

Section MoreSanitizer.

Import JsString.

Lemma trimStart_app_white ws s :
  Forall (fun c => is_white c = true) ws -> trimStart (ws ++ s) = trimStart s.
Proof.
  induction 1 as [| c ws Hc _ IH]; simpl; [reflexivity |].
  rewrite Hc. exact IH.
Qed.

Lemma trimEnd_app_white s ws :
  Forall (fun c => is_white c = true) ws -> trimEnd (s ++ ws) = trimEnd s.
Proof.
  intros H. unfold trimEnd. rewrite rev_app_distr, trimStart_app_white; [reflexivity |].
  apply Forall_rev. exact H.
Qed.

Lemma trim_app_white_r s ws :
  Forall (fun c => is_white c = true) ws -> trim (s ++ ws) = trim s.
Proof.
  intros H. unfold trim. induction s as [| c s IH]; simpl.
  - rewrite (trimStart_white ws H). reflexivity.
  - destruct (is_white c); [exact IH |].
    apply (trimEnd_app_white (c :: s) ws H).
Qed.

(** X11: white space around the prompt does not count: a prompt and
    the same prompt with any white space before and after it have the
    same sanitized name, hence the same two output files. *)
Theorem sanitizeFileName_ignores_outer_space (cfg : config) (before s after : list N) :
  Forall (fun c => is_white c = true) before ->
  Forall (fun c => is_white c = true) after ->
  sanitizeFileName (before ++ s ++ after) = sanitizeFileName s
  /\ pngPath cfg (before ++ s ++ after) = pngPath cfg s
  /\ glbPath cfg (before ++ s ++ after) = glbPath cfg s.
Proof.
  intros Hb Ha.
  assert (H : sanitizeFileName (before ++ s ++ after) = sanitizeFileName s).
  { unfold sanitizeFileName. f_equal. f_equal. unfold trim.
    rewrite trimStart_app_white by exact Hb. apply (trim_app_white_r s after Ha). }
  unfold pngPath, glbPath, pngName, glbName. rewrite H. repeat split.
Qed.

(** X12: only the first 20 code units of the trimmed prompt count, and
    among them only the letters and digits: two prompts whose trimmed
    forms agree there, up to replacing one character outside
    [a-zA-Z0-9] by another, get the same name, so that their outputs
    overwrite each other. *)
Theorem sanitizeFileName_collides (cfg : config) (a b : list N) :
  Forall2 (fun x y => x = y \/ (is_alnum x = false /\ is_alnum y = false))
    (take 20 (trim a)) (take 20 (trim b)) ->
  sanitizeFileName a = sanitizeFileName b
  /\ pngPath cfg a = pngPath cfg b
  /\ glbPath cfg a = glbPath cfg b.
Proof.
  intros H.
  assert (Hs : sanitizeFileName a = sanitizeFileName b).
  { unfold sanitizeFileName, substring0, replace_non_alnum.
    rewrite <- !fmap_take.
    induction H as [| x y la lb Hxy _ IH]; [reflexivity |].
    simpl. f_equal; [| exact IH].
    destruct Hxy as [-> | [-> ->]]; reflexivity. }
  unfold pngPath, glbPath, pngName, glbName. rewrite Hs. repeat split.
Qed.

(** X13: the fixed points of the sanitizer are exactly the strings of
    at most 20 code units of [a-zA-Z0-9_]: such a prompt is its own
    file stem, and no other string is. *)
Theorem sanitizeFileName_fixed_points (s : list N) :
  sanitizeFileName s = s
  <-> Forall (fun c => is_safe c = true) s /\ (length s <= 20)%nat.
Proof.
  split.
  - intros H. rewrite <- H. split.
    + apply sanitizeFileName_safe.
    + apply sanitizeFileName_length.
  - intros [Hsafe Hlen]. apply sanitizeFileName_fixed; assumption.
Qed.

End MoreSanitizer.

Lemma sanitizeFileName_ignores_outer_space_witness :
  sanitizeFileName (js "  " ++ js "a red cube" ++ [0x0A]) = sanitizeFileName (js "a red cube").
Proof.
  apply (sanitizeFileName_ignores_outer_space Demo.cfg (js "  ") (js "a red cube") [0x0A]).
  - repeat constructor.
  - repeat constructor.
Defined.

(** ["a red cube!"] and ["a red cube?"], and two long prompts that
    part after the twentieth character. *)
Lemma sanitizeFileName_collides_witness :
  pngPath Demo.cfg (js "a red cube!") = pngPath Demo.cfg (js "a red cube?")
  /\ glbPath Demo.cfg (js "a friendly squirrel with a hat")
     = glbPath Demo.cfg (js "a friendly squirrel on a bike").
Proof.
  split.
  - apply (sanitizeFileName_collides Demo.cfg (js "a red cube!") (js "a red cube?")).
    vm_compute. repeat (constructor; auto).
  - apply (sanitizeFileName_collides Demo.cfg (js "a friendly squirrel with a hat")
             (js "a friendly squirrel on a bike")).
    vm_compute. repeat (constructor; auto).
Defined.

Lemma png_name_neq_glb_name (x y : list N) : x ++ js ".png" <> y ++ js ".glb".
Proof.
  change (js ".png") with ([0x2E; 0x70; 0x6E] ++ [0x67]).
  change (js ".glb") with ([0x2E; 0x67; 0x6C] ++ [0x62]).
  rewrite !app_assoc. intros H. apply app_inj_tail in H as [_ H]. discriminate H.
Qed.

(** X15: two prompts share an output file exactly when their sanitized
    names are equal, and the image of one prompt is never the model
    file of another: a [.glb] write cannot destroy a [.png]. *)
Theorem output_files_collide_iff (cfg : config) (a b : list N) :
  (pngPath cfg a = pngPath cfg b <-> sanitizeFileName a = sanitizeFileName b)
  /\ (glbPath cfg a = glbPath cfg b <-> sanitizeFileName a = sanitizeFileName b)
  /\ pngPath cfg a <> glbPath cfg b.
Proof.
  unfold pngPath, glbPath, path_resolve, pngName, glbName. split; [| split].
  - split; [| intros ->; reflexivity].
    intros H. do 3 apply app_inv_head in H. apply app_inv_tail in H. exact H.
  - split; [| intros ->; reflexivity].
    intros H. do 3 apply app_inv_head in H. apply app_inv_tail in H. exact H.
  - intros H. do 3 apply app_inv_head in H. exact (png_name_neq_glb_name _ _ H).
Qed.

(** ** A failing optimizer *)

(** X16: in the first variant a failure of [optimizePrompt] ends the
    call at once: [generate3DModel] rejects with the same error, no
    request reaches a Stability endpoint, and the disk is untouched. *)
Theorem optimizer_failure_stops_the_pipeline cfg w prompt s e :
  fst (optimizePrompt cfg w prompt (promptModifierImage cfg) s) = Rejected e ->
  let run := Optimizer.generate3DModel cfg w prompt s in
  fst run = Rejected e
  /\ fs (snd run) = fs s
  /\ omap posted_url (events_since s (snd run)) = [chatUrl].
Proof.
  intros Hopt run. subst run.
  destruct (Optimizer_cases cfg w prompt s)
    as [(e' & said & Hsaid & Hopt' & _ & ->)
       | [(op & e' & Hopt' & _)
         | [(op & img & e' & Hopt' & _)
           | (op & img & mdl & Hopt' & _)]]];
    rewrite Hopt' in Hopt; try discriminate.
  injection Hopt as ->. simpl fst. simpl snd. rewrite events_since_logged.
  repeat split.
  change (omap posted_url (?x :: said ++ ?l)) with (omap posted_url ([x] ++ said ++ l)).
  rewrite !omap_app, (posted_console_only _ Hsaid). reflexivity.
Qed.

(** The chat endpoint cannot be reached. *)
Lemma optimizer_failure_stops_the_pipeline_witness :
  let refused := AxiosError (js "ECONNREFUSED") None in
  let w := mkWorld (fun _ => Rejected refused)
             (axios_post_form (Demo.world_of 200 200)) Demo.latin1 Demo.writable in
  let run := Optimizer.generate3DModel Demo.cfg w (js "a red cube") Demo.s0 in
  fst run = Rejected refused
  /\ fs (snd run) = fs Demo.s0
  /\ omap posted_url (events_since Demo.s0 (snd run)) = [chatUrl].
Proof.
  intros refused w run.
  exact (optimizer_failure_stops_the_pipeline Demo.cfg w (js "a red cube") Demo.s0
           refused eq_refl).
Defined.

(** ** Instances of the equivalences *)

Lemma sanitizeFileName_fixed_points_witness :
  sanitizeFileName (js "a_red_cube") = js "a_red_cube"
  /\ Forall (fun c => JsString.is_safe c = true) (js "a_friendly_squirrel_").
Proof.
  split.
  - apply (proj2 (sanitizeFileName_fixed_points (js "a_red_cube"))).
    split; [repeat constructor | vm_compute; lia].
  - apply (proj1 (sanitizeFileName_fixed_points (js "a_friendly_squirrel_"))).
    reflexivity.
Defined.

Lemma output_files_collide_iff_witness :
  pngPath Demo.cfg (js "a red cube!") = pngPath Demo.cfg (js " a red cube? ")
  /\ sanitizeFileName (js "Cube") = sanitizeFileName (js "Cube").
Proof.
  destruct (output_files_collide_iff Demo.cfg (js "a red cube!") (js " a red cube? "))
    as ((_ & Hto) & _).
  destruct (output_files_collide_iff Demo.cfg (js "Cube") (js "Cube")) as ((Hfrom & _) & _).
  split.
  - apply Hto. reflexivity.
  - apply Hfrom. reflexivity.
Defined.
